(** * health-agent: the analytics core of [backend/services/ml_models]

    A shallow embedding of the risk calculators (FINDRISC, metabolic
    syndrome, Framingham), of the trend / anomaly / health-score engine and
    of the assessments of [backend/services/risk_service.py] that feed the
    calculators, followed by the properties established about them.

    Number model.  Python [int] is [Z].  Python [float] is an exact rational
    ([Q]) wherever the code only adds, multiplies, divides, compares and
    rounds; the two places that call [math.sqrt], [math.log], [math.exp] and
    [math.pow] are embedded over the real numbers ([R]).  Rounding error of
    binary floating point is therefore outside the model.  Operations that
    can raise in Python (division by zero, indexing) return in the [Res]
    monad.  The human-readable texts ([factors], [recommendations],
    [analysis], [summary], [message] and the formatted [criterion] and
    [value] strings) influence no numeric field and are left out of the
    result records; the advice list of the metabolic calculator is embedded
    as a function of its own. *)

From Stdlib Require Import ZArith QArith Qround Qabs Reals Qreals Psatz List Bool.
From Stdlib Require Import Sorting.Sorted Sorting.Permutation.
From stdpp Require Import sorting.
From stdpp Require Import gmap strings.

Open Scope string_scope.
Open Scope Q_scope.

(** ** Python primitives *)

Inductive exn :=
  ZeroDivisionError | IndexError | KeyError | ValueError | OverflowError.

Inductive Res (A : Type) : Type :=
| Ok (a : A)
| Raise (e : exn).
Arguments Ok {A} a.
Arguments Raise {A} e.

#[global] Instance Res_ret : MRet Res := fun A a => Ok a.
#[global] Instance Res_bind : MBind Res := fun A B k m =>
  match m with
  | Ok a => k a
  | Raise e => Raise e
  end.

Definition Qlt_bool (x y : Q) : bool := negb (Qle_bool y x).

(** [int(x)] on a float: truncation toward zero. *)
Definition py_int (x : Q) : Z :=
  if Qle_bool 0 x then Qfloor x else Qceiling x.

(** [round(x)] on a float: nearest integer, ties to the even one. *)
Definition py_round (x : Q) : Z :=
  let f := Qfloor x in
  match Qcompare (x - inject_Z f) (1 # 2) with
  | Lt => f
  | Gt => (f + 1)%Z
  | Eq => if Z.even f then f else (f + 1)%Z
  end.

(** [round(x, n)] for [n >= 0] decimals, as a fraction in lowest terms. *)
Definition py_round_nd (x : Q) (n : nat) : Q :=
  Qred (inject_Z (py_round (x * inject_Z (10 ^ Z.of_nat n)))
        / inject_Z (10 ^ Z.of_nat n)).

(** [x / y] on floats. *)
Definition py_div (x y : Q) : Res Q :=
  if Qeq_bool y 0 then Raise ZeroDivisionError else Ok (x / y).

(** [sum(l)]. *)
Definition py_sum (l : list Q) : Q := fold_left Qplus l 0.

(** [max(a, b)]: the first of the two when neither is larger. *)
Definition py_max (a b : Q) : Q := if Qlt_bool a b then b else a.

(** [l[a:b]] for non-negative bounds. *)
Definition slice {A} (l : list A) (start stop : nat) : list A :=
  firstn (stop - start) (skipn start l).

(** [enumerate(l)]. *)
Definition enumerate {A} (l : list A) : list (nat * A) :=
  combine (seq 0 (length l)) l.

(** A [for] loop whose body may raise: the list of the values it appends. *)
Fixpoint res_mapM {A B} (f : A -> Res B) (l : list A) : Res (list B) :=
  match l with
  | [] => Ok []
  | x :: l' => y ← f x; ys ← res_mapM f l'; mret (y :: ys)
  end.

(** [d[k]] on a dict. *)
Definition py_getitem {V} (d : gmap string V) (k : string) : Res V :=
  match d !! k with
  | Some v => Ok v
  | None => Raise KeyError
  end.

(** [l[i]] for a non-negative index. *)
Definition py_index {A} (l : list A) (i : nat) : Res A :=
  match nth_error l i with
  | Some x => Ok x
  | None => Raise IndexError
  end.

(** [l[-1]]. *)
Definition py_last {A} (l : list A) : Res A :=
  match l with
  | [] => Raise IndexError
  | _ => py_index l (length l - 1)
  end.

(** ** diabetes.py *)

Module Diabetes.

Record DiabetesRiskInput := {
  age : Z;
  bmi : Q;
  waist : Q;
  gender : string;
  on_bp_medication : bool;
  history_high_glucose : bool;
  daily_physical_activity : bool;
  daily_fruit_vegetable : bool;
  family_diabetes : string
}.

(** The ['score'] entries of [score_breakdown], keyed as in the source. *)
Record ScoreBreakdown := {
  sb_age : Z;
  sb_bmi : Z;
  sb_waist : Z;
  sb_activity : Z;
  sb_diet : Z;
  sb_bp_medication : Z;
  sb_high_glucose : Z;
  sb_family : Z
}.

Record DiabetesResult := {
  total_score : Z;
  risk_percentage : Q;
  risk_level : string;
  score : Z;
  score_breakdown : ScoreBreakdown
}.

Definition _score_age (age : Z) : Z :=
  if (age <? 45)%Z then 0
  else if (age <? 55)%Z then 2
  else if (age <? 65)%Z then 3
  else 4.

Definition _score_bmi (bmi : Q) : Z :=
  if Qlt_bool bmi 25 then 0
  else if Qlt_bool bmi 30 then 1
  else 3.

Definition _score_waist (waist : Q) (gender : string) : Z :=
  if String.eqb gender "男" then
    if Qlt_bool waist 94 then 0
    else if Qlt_bool waist 102 then 3
    else 4
  else
    if Qlt_bool waist 80 then 0
    else if Qlt_bool waist 88 then 3
    else 4.

Definition _score_family_history (family : string) : Z :=
  if String.eqb family "first_degree" then 5
  else if String.eqb family "second_degree" then 3
  else 0.

Definition _get_risk_level (score : Z) : string * Q :=
  if (score <? 7)%Z then ("low", 1)
  else if (score <? 12)%Z then ("low", 4)
  else if (score <? 15)%Z then ("medium", 17)
  else if (score <? 21)%Z then ("high", 33)
  else ("high", 50).

Definition calculate (input_data : DiabetesRiskInput) : DiabetesResult :=
  let total_score := 0%Z in
  let age_score := _score_age (age input_data) in
  let total_score := (total_score + age_score)%Z in
  let bmi_score := _score_bmi (bmi input_data) in
  let total_score := (total_score + bmi_score)%Z in
  let waist_score := _score_waist (waist input_data) (gender input_data) in
  let total_score := (total_score + waist_score)%Z in
  let activity_score := if daily_physical_activity input_data then 0%Z else 2%Z in
  let total_score := (total_score + activity_score)%Z in
  let diet_score := if daily_fruit_vegetable input_data then 0%Z else 1%Z in
  let total_score := (total_score + diet_score)%Z in
  let bp_med_score := if on_bp_medication input_data then 2%Z else 0%Z in
  let total_score := (total_score + bp_med_score)%Z in
  let glucose_score := if history_high_glucose input_data then 5%Z else 0%Z in
  let total_score := (total_score + glucose_score)%Z in
  let family_score := _score_family_history (family_diabetes input_data) in
  let total_score := (total_score + family_score)%Z in
  let '(risk_level, risk_percentage) := _get_risk_level total_score in
  let normalized_score :=
    Z.min 100 (py_int (inject_Z (total_score * 100) / 26)) in
  {| total_score := total_score;
     risk_percentage := risk_percentage;
     risk_level := risk_level;
     score := normalized_score;
     score_breakdown :=
       {| sb_age := age_score; sb_bmi := bmi_score; sb_waist := waist_score;
          sb_activity := activity_score; sb_diet := diet_score;
          sb_bp_medication := bp_med_score; sb_high_glucose := glucose_score;
          sb_family := family_score |} |}.

(** [calculate_diabetes_risk] with its keyword defaults made explicit. *)
Definition calculate_diabetes_risk (age : Z) (bmi waist : Q) (gender : string)
    (on_bp_medication history_high_glucose : bool)
    (daily_physical_activity daily_fruit_vegetable : bool)
    (family_diabetes : string) : DiabetesResult :=
  calculate
    {| age := age; bmi := bmi; waist := waist; gender := gender;
       on_bp_medication := on_bp_medication;
       history_high_glucose := history_high_glucose;
       daily_physical_activity := daily_physical_activity;
       daily_fruit_vegetable := daily_fruit_vegetable;
       family_diabetes := family_diabetes |}.

End Diabetes.

(** ** metabolic.py *)

Module Metabolic.

Record MetabolicRiskInput := {
  waist : Q;
  gender : string;
  triglycerides : Q;
  hdl_cholesterol : Q;
  systolic_bp : Q;
  diastolic_bp : Q;
  fasting_glucose : Q;
  on_bp_medication : bool;
  on_lipid_medication : bool;
  on_glucose_medication : bool
}.

(** One entry of [criteria_details]; the waist entry has no
    ['on_treatment'] key. *)
Record Criterion := {
  name : string;
  abnormal : bool;
  on_treatment : option bool;
  met : bool
}.

Record MetabolicResult := {
  has_metabolic_syndrome : bool;
  criteria_met : Z;
  total_criteria : Z;
  risk_level : string;
  score : Z;
  criteria_details : list Criterion
}.

Definition WAIST_THRESHOLD : gmap string Q := <["男" := 90%Q]> (<["女" := 80%Q]> ∅).
Definition HDL_THRESHOLD : gmap string Q := <["男" := 40%Q]> (<["女" := 50%Q]> ∅).

Definition _get_risk_level (criteria_met : Z) : string :=
  if (criteria_met =? 0)%Z then "low"
  else if (criteria_met <=? 2)%Z then "medium"
  else "high".

Definition calculate (input_data : MetabolicRiskInput) : MetabolicResult :=
  let criteria_details : list Criterion := [] in
  let criteria_met := 0%Z in
  (* 1 *)
  let waist_threshold := default 90%Q (WAIST_THRESHOLD !! gender input_data) in
  let waist_abnormal := Qle_bool waist_threshold (waist input_data) in
  let criteria_details := app criteria_details
    [{| name := "腹型肥胖"; abnormal := waist_abnormal;
        on_treatment := None; met := waist_abnormal |}] in
  let criteria_met := if waist_abnormal then (criteria_met + 1)%Z else criteria_met in
  (* 2 *)
  let tg_abnormal :=
    Qle_bool 150 (triglycerides input_data) || on_lipid_medication input_data in
  let criteria_details := app criteria_details
    [{| name := "甘油三酯升高";
        abnormal := Qle_bool 150 (triglycerides input_data);
        on_treatment := Some (on_lipid_medication input_data);
        met := tg_abnormal |}] in
  let criteria_met := if tg_abnormal then (criteria_met + 1)%Z else criteria_met in
  (* 3 *)
  let hdl_threshold := default 40%Q (HDL_THRESHOLD !! gender input_data) in
  let hdl_abnormal :=
    Qlt_bool (hdl_cholesterol input_data) hdl_threshold
    || on_lipid_medication input_data in
  let criteria_details := app criteria_details
    [{| name := "HDL胆固醇降低";
        abnormal := Qlt_bool (hdl_cholesterol input_data) hdl_threshold;
        on_treatment := Some (on_lipid_medication input_data);
        met := hdl_abnormal |}] in
  let criteria_met := if hdl_abnormal then (criteria_met + 1)%Z else criteria_met in
  (* 4 *)
  let bp_abnormal :=
    Qle_bool 130 (systolic_bp input_data)
    || Qle_bool 85 (diastolic_bp input_data)
    || on_bp_medication input_data in
  let criteria_details := app criteria_details
    [{| name := "血压升高";
        abnormal := Qle_bool 130 (systolic_bp input_data)
                    || Qle_bool 85 (diastolic_bp input_data);
        on_treatment := Some (on_bp_medication input_data);
        met := bp_abnormal |}] in
  let criteria_met := if bp_abnormal then (criteria_met + 1)%Z else criteria_met in
  (* 5 *)
  let glucose_abnormal :=
    Qle_bool (56 # 10) (fasting_glucose input_data)
    || on_glucose_medication input_data in
  let criteria_details := app criteria_details
    [{| name := "空腹血糖升高";
        abnormal := Qle_bool (56 # 10) (fasting_glucose input_data);
        on_treatment := Some (on_glucose_medication input_data);
        met := glucose_abnormal |}] in
  let criteria_met := if glucose_abnormal then (criteria_met + 1)%Z else criteria_met in
  let has_metabolic_syndrome := (3 <=? criteria_met)%Z in
  let risk_level := _get_risk_level criteria_met in
  let score := (criteria_met * 20)%Z in
  {| has_metabolic_syndrome := has_metabolic_syndrome;
     criteria_met := criteria_met;
     total_criteria := 5;
     risk_level := risk_level;
     score := score;
     criteria_details := criteria_details |}.

(** [_generate_recommendations]: the texts appended, in order, cut to the
    first eight. *)
Definition _generate_recommendations (data : MetabolicRiskInput)
    (criteria : list Criterion) (has_syndrome : bool) : list string :=
  let recommendations : list string := [] in
  let recommendations :=
    if has_syndrome then
      app recommendations
        ["您已符合代谢综合征诊断标准，建议尽快就医";
         "代谢综合征会显著增加心血管疾病和糖尿病风险";
         "需要在医生指导下进行综合治疗"]
    else recommendations in
  let recommendations :=
    fold_left (fun recommendations item =>
        if met item then
          if String.eqb (name item) "腹型肥胖" then
            app recommendations
              ["减少腹部脂肪是改善代谢的关键"; "建议通过饮食控制和运动减轻体重"]
          else if String.eqb (name item) "甘油三酯升高" then
            app recommendations
              ["减少精制碳水化合物和酒精摄入"; "增加富含Omega-3的食物，如深海鱼"]
          else if String.eqb (name item) "HDL胆固醇降低" then
            app recommendations
              ["增加有氧运动可提高HDL水平"; "戒烟有助于提高HDL胆固醇"]
          else if String.eqb (name item) "血压升高" then
            app recommendations
              ["限制钠盐摄入，每日不超过6克"; "增加钾的摄入，多吃蔬菜水果"]
          else if String.eqb (name item) "空腹血糖升高" then
            app recommendations
              ["控制碳水化合物摄入，选择低GI食物"; "餐后适当活动有助于控制血糖"]
          else recommendations
        else recommendations)
      criteria recommendations in
  let recommendations :=
    if negb has_syndrome then
      app recommendations ["保持健康生活方式，预防代谢综合征"]
    else recommendations in
  let recommendations := app recommendations ["定期体检，监测各项代谢指标"] in
  firstn 8 recommendations.

End Metabolic.

(** ** Floats as real numbers, for the code that uses [math] *)



Definition py_int_R (x : R) : Z :=
  if Rle_dec 0 x then Int_part x else (- Int_part (- x))%Z.

Definition py_round_R (x : R) : Z :=
  let f := Int_part x in
  if Rlt_dec (x - IZR f) (1 / 2) then f
  else if Rlt_dec (1 / 2) (x - IZR f) then (f + 1)%Z
  else if Z.even f then f else (f + 1)%Z.

Definition py_round_nd_R (x : R) (n : nat) : R :=
  (IZR (py_round_R (x * 10 ^ n)) / 10 ^ n)%R.


Definition math_log (x : R) : Res R :=
  if Rlt_dec 0 x then Ok (ln x) else Raise ValueError.

(** The largest finite binary64 number, [(2 - 2^-52) * 2^1023]. *)
Definition max_float : R := ((2 - / 2 ^ 52) * 2 ^ 1023)%R.

(** [math.exp]: an [OverflowError] when the result exceeds the largest
    float. *)
Definition math_exp (x : R) : Res R :=
  if Rlt_dec max_float (exp x) then Raise OverflowError else Ok (exp x).

(** [math.pow x y]; its one call site has a positive constant base. *)
Definition math_pow (x y : R) : R := Rpower x y.

(** ** trend_analysis.py *)

(** [sorted] on floats: a stable merge sort by [<=]. *)
#[global] Instance Qle_dec : RelDecision Qle := fun x y =>
  match Qlt_le_dec y x with
  | left H => right (Qlt_not_le _ _ H)
  | right H => left H
  end.

Definition sorted (data : list Q) : list Q := merge_sort Qle data.

Module TrendAnalyzer.

Definition calculate_moving_average (data : list Q) (window : Z) : Res (list Q) :=
  if (Z.of_nat (length data) <? window)%Z then Ok data
  else
    res_mapM (fun i : nat =>
      if (Z.of_nat i <? window - 1)%Z then
        py_div (py_sum (slice data 0 (i + 1))) (inject_Z (Z.of_nat i + 1))
      else
        py_div (py_sum (slice data (Z.to_nat (Z.of_nat i - window + 1)) (i + 1)))
               (inject_Z window))
      (seq 0 (length data)).

Definition linear_regression (data : list Q) : Res (Q * Q) :=
  let n := length data in
  if (n <? 2)%nat then
    Ok (0, match data with x :: _ => x | [] => 0 end)
  else
    let x_mean := inject_Z (Z.of_nat n - 1) / 2 in
    y_mean ← py_div (py_sum data) (inject_Z (Z.of_nat n));
    let numerator :=
      py_sum (map (fun '(i, y) => (inject_Z (Z.of_nat i) - x_mean) * (y - y_mean))
                  (enumerate data)) in
    let denominator :=
      py_sum (map (fun i : nat => (inject_Z (Z.of_nat i) - x_mean) ^ 2) (seq 0 n)) in
    if Qeq_bool denominator 0 then Ok (0, y_mean)
    else
      slope ← py_div numerator denominator;
      let intercept := y_mean - slope * x_mean in
      mret (slope, intercept).

(** [data[-14:] if len(data) > 14 else data]. *)
Definition recent14 (data : list Q) : list Q :=
  if (14 <? length data)%nat then skipn (length data - 14) data else data.

Definition predict_next_values (data : list Q) (steps : Z) : Res (list Q) :=
  if (length data <? 3)%nat then
    match data with
    | [] => Ok (repeat 0 (Z.to_nat steps))
    | _ => x ← py_last data; mret (repeat x (Z.to_nat steps))
    end
  else
    let recent_data := recent14 data in
    '(slope, intercept) ← linear_regression recent_data;
    let n := length recent_data in
    mret (map (fun i : nat => slope * inject_Z (Z.of_nat n + Z.of_nat i) + intercept)
              (seq 0 (Z.to_nat steps))).



End TrendAnalyzer.

Module AnomalyDetector.

(** An entry of [MEDICAL_THRESHOLDS]: its numeric keys and its ['unit']. *)
Record Thresholds := {
  numeric : gmap string Q;
  unit : string
}.

Definition MEDICAL_THRESHOLDS : gmap string Thresholds :=
  <["heart_rate" :=
      {| numeric := <["critical_low" := 40]> (<["low" := 50]>
                    (<["high" := 100]> (<["critical_high" := 120]> ∅)));
         unit := "bpm" |}]>
  (<["blood_pressure_sys" :=
      {| numeric := <["critical_low" := 80]> (<["low" := 90]>
                    (<["high" := 140]> (<["critical_high" := 180]> ∅)));
         unit := "mmHg" |}]>
  (<["blood_pressure_dia" :=
      {| numeric := <["critical_low" := 50]> (<["low" := 60]>
                    (<["high" := 90]> (<["critical_high" := 120]> ∅)));
         unit := "mmHg" |}]>
  (<["blood_sugar" :=
      {| numeric := <["critical_low" := 3]> (<["low" := 39 # 10]>
                    (<["high" := 61 # 10]> (<["critical_high" := 111 # 10]> ∅)));
         unit := "mmol/L" |}]>
  (<["spo2" :=
      {| numeric := <["critical_low" := 90]> (<["low" := 94]>
                    (<["high" := 100]> (<["critical_high" := 100]> ∅)));
         unit := "%" |}]>
  (<["weight" :=
      {| numeric := <["change_threshold" := 2]> ∅;
         unit := "kg" |}]> ∅))))).



(** An anomaly found by [detect_iqr]. *)
Record IqrAnomaly := {
  index : nat;
  value : Q;
  lower_bound : Q;
  upper_bound : Q;
  type : string
}.

Definition detect_iqr (data : list Q) (multiplier : Q) : Res (list IqrAnomaly) :=
  if (length data <? 4)%nat then Ok []
  else
    let sorted_data := sorted data in
    let n := length sorted_data in
    q1 ← py_index sorted_data (n / 4);
    q3 ← py_index sorted_data (3 * n / 4);
    let iqr := q3 - q1 in
    let lower_bound := q1 - multiplier * iqr in
    let upper_bound := q3 + multiplier * iqr in
    mret (concat (map (fun '(i, value) =>
        if Qlt_bool value lower_bound || Qlt_bool upper_bound value then
          [{| index := i; value := value;
              lower_bound := py_round_nd lower_bound 1;
              upper_bound := py_round_nd upper_bound 1;
              type := if Qlt_bool upper_bound value then "high" else "low" |}]
        else [])
      (enumerate data))).

(** The dict returned by [detect_medical_anomaly]; ['type'] is only set on
    a branch that also sets ['severity']. *)
Record MedicalAnomaly := {
  m_value : Q;
  m_metric_type : string;
  m_unit : string;
  severity : string;
  m_type : option string
}.

Definition detect_medical_anomaly (value : Q) (metric_type : string)
    : Res (option MedicalAnomaly) :=
  match MEDICAL_THRESHOLDS !! metric_type with
  | None => Ok None
  | Some thresholds =>
    let result := {| m_value := value; m_metric_type := metric_type;
                     m_unit := unit thresholds; severity := "normal";
                     m_type := None |} in
    let set (sev ty : string) :=
      {| m_value := value; m_metric_type := metric_type;
         m_unit := unit thresholds; severity := sev; m_type := Some ty |} in
    result ←
      (match numeric thresholds !! "critical_low" with
       | Some critical_low =>
         if Qle_bool value critical_low then mret (set "critical" "low")
         else
           low ← py_getitem (numeric thresholds) "low";
           if Qle_bool value low then mret (set "warning" "low")
           else
             critical_high ← py_getitem (numeric thresholds) "critical_high";
             if Qle_bool critical_high value then mret (set "critical" "high")
             else
               high ← py_getitem (numeric thresholds) "high";
               if Qle_bool high value then mret (set "warning" "high")
               else mret result
       | None => mret result
       end);
    if String.eqb (severity result) "normal" then mret None
    else mret (Some result)
  end.




End AnomalyDetector.

Module HealthScoreCalculator.

Definition WEIGHTS : gmap string Q :=
  <["heart_rate" := 15 # 100]> (<["blood_pressure" := 20 # 100]>
  (<["blood_sugar" := 15 # 100]> (<["sleep" := 15 # 100]>
  (<["activity" := 15 # 100]> (<["weight" := 10 # 100]>
  (<["spo2" := 10 # 100]> ∅)))))).

Record Band := {
  optimal : Q * Q;
  normal : Q * Q
}.

Definition ranges : gmap string Band :=
  <["heart_rate" := {| optimal := (60, 80); normal := (50, 100) |}]>
  (<["blood_pressure_sys" := {| optimal := (100, 120); normal := (90, 140) |}]>
  (<["blood_pressure_dia" := {| optimal := (60, 80); normal := (60, 90) |}]>
  (<["blood_sugar" := {| optimal := (4, 55 # 10); normal := (39 # 10, 61 # 10) |}]>
  (<["spo2" := {| optimal := (97, 100); normal := (94, 100) |}]>
  (<["sleep_duration" := {| optimal := (7, 8); normal := (6, 9) |}]>
  (<["steps" := {| optimal := (8000, 12000); normal := (5000, 15000) |}]>
  (<["bmi" := {| optimal := (185 # 10, 24); normal := (185 # 10, 28) |}]> ∅))))))).

Definition calculate_metric_score (value : Q) (metric_type : string) : Res Q :=
  match ranges !! metric_type with
  | None => Ok 70
  | Some band =>
    let optimal := optimal band in
    let normal := normal band in
    if Qle_bool optimal.1 value && Qle_bool value optimal.2 then Ok 95
    else if Qle_bool normal.1 value && Qle_bool value normal.2 then
      ratio ← (if Qlt_bool value optimal.1
               then py_div (value - normal.1) (optimal.1 - normal.1)
               else py_div (normal.2 - value) (normal.2 - optimal.2));
      mret (70 + ratio * 20)
    else
      ratio ← (if Qlt_bool value normal.1
               then q ← py_div value normal.1; mret (py_max 0 q)
               else q ← py_div (value - normal.2) normal.2; mret (py_max 0 (1 - q)));
      mret (ratio * 70)
  end.

(** The running [category_scores], [weighted_sum], [total_weight]. *)
Definition Acc : Type := gmap string Z * Q * Q.

(** The block repeated for each single-metric category: if [metric] is a
    key of [metrics], score it and account for it under [category]. *)
Definition add_category (metrics : gmap string Q) (metric category : string)
    (acc : Acc) : Res Acc :=
  let '(category_scores, weighted_sum, total_weight) := acc in
  match metrics !! metric with
  | Some v =>
    score ← calculate_metric_score v metric;
    w ← py_getitem WEIGHTS category;
    mret (<[category := py_round score]> category_scores,
          weighted_sum + score * w, total_weight + w)
  | None => mret acc
  end.

(** The blood-pressure block. *)
Definition add_blood_pressure (metrics : gmap string Q) (acc : Acc) : Res Acc :=
  let '(category_scores, weighted_sum, total_weight) := acc in
  match metrics !! "blood_pressure_sys", metrics !! "blood_pressure_dia" with
  | Some sys, Some dia =>
    sys_score ← calculate_metric_score sys "blood_pressure_sys";
    dia_score ← calculate_metric_score dia "blood_pressure_dia";
    let bp_score := (sys_score + dia_score) / 2 in
    w ← py_getitem WEIGHTS "blood_pressure";
    mret (<["blood_pressure" := py_round bp_score]> category_scores,
          weighted_sum + bp_score * w, total_weight + w)
  | _, _ => mret acc
  end.

Record HealthScore := {
  overall_score : Z;
  category_scores : gmap string Z;
  level : string
}.

Definition calculate_overall_score (metrics : gmap string Q) : Res HealthScore :=
  let acc : Acc := (∅, 0, 0) in
  acc ← add_category metrics "heart_rate" "heart_rate" acc;
  acc ← add_blood_pressure metrics acc;
  acc ← add_category metrics "blood_sugar" "blood_sugar" acc;
  acc ← add_category metrics "sleep_duration" "sleep" acc;
  acc ← add_category metrics "steps" "activity" acc;
  acc ← add_category metrics "spo2" "spo2" acc;
  acc ← add_category metrics "bmi" "weight" acc;
  let '(category_scores, weighted_sum, total_weight) := acc in
  overall_score ←
    (if Qlt_bool 0 total_weight then
       q ← py_div weighted_sum total_weight; mret (py_int q)
     else mret 70%Z);
  let level :=
    if (90 <=? overall_score)%Z then "excellent"
    else if (75 <=? overall_score)%Z then "good"
    else if (60 <=? overall_score)%Z then "fair"
    else "poor" in
  mret {| overall_score := overall_score;
          category_scores := category_scores;
          level := level |}.

End HealthScoreCalculator.

(** ** cardiovascular.py *)

Module Cardiovascular.

Record CardiovascularRiskInput := {
  age : Z;
  gender : string;
  total_cholesterol : R;
  hdl_cholesterol : R;
  systolic_bp : R;
  on_bp_medication : bool;
  is_smoker : bool;
  has_diabetes : bool
}.

(** A coefficient table; the fields are the keys of the source's dicts. *)
Record Coefficients := {
  ln_age : R;
  ln_total_chol : R;
  ln_hdl : R;
  ln_sbp_untreated : R;
  ln_sbp_treated : R;
  smoker : R;
  diabetes : R;
  baseline_survival : R;
  mean_coefficient_sum : R
}.

Definition MALE_COEFFICIENTS : Coefficients :=
  {| ln_age := 3.06117; ln_total_chol := 1.12370; ln_hdl := -0.93263;
     ln_sbp_untreated := 1.93303; ln_sbp_treated := 1.99881;
     smoker := 0.65451; diabetes := 0.57367;
     baseline_survival := 0.88936; mean_coefficient_sum := 23.9802 |}%R.

Definition FEMALE_COEFFICIENTS : Coefficients :=
  {| ln_age := 2.32888; ln_total_chol := 1.20904; ln_hdl := -0.70833;
     ln_sbp_untreated := 2.76157; ln_sbp_treated := 2.82263;
     smoker := 0.52873; diabetes := 0.69154;
     baseline_survival := 0.95012; mean_coefficient_sum := 26.1931 |}%R.

(** The ['details'] of a computed result. *)
Record Details := {
  d_age : Z;
  d_gender : string;
  d_total_cholesterol : R;
  d_hdl_cholesterol : R;
  d_systolic_bp : R;
  d_coefficient_sum : R
}.

Record CardiovascularResult := {
  risk_percentage : R;
  risk_level : string;
  score : Z;
  details : option Details
}.

Definition _validate_input (data : CardiovascularRiskInput) : bool :=
  if (age data <? 30)%Z || (79 <? age data)%Z then false
  else if negb (String.eqb (gender data) "男" || String.eqb (gender data) "女") then false
  else if Rle_dec (total_cholesterol data) 0 then false
  else if Rle_dec (hdl_cholesterol data) 0 then false
  else if Rle_dec (systolic_bp data) 0 then false
  else true.

Definition _get_risk_level (risk_percentage : R) : string :=
  if Rlt_dec risk_percentage 10 then "low"
  else if Rlt_dec risk_percentage 20 then "medium"
  else "high".

Definition _get_default_result : CardiovascularResult :=
  {| risk_percentage := 0; risk_level := "unknown"; score := 0; details := None |}.

Definition calculate (input_data : CardiovascularRiskInput) : Res CardiovascularResult :=
  if negb (_validate_input input_data) then Ok _get_default_result
  else
    let is_male := String.eqb (gender input_data) "男" in
    let coef := if is_male then MALE_COEFFICIENTS else FEMALE_COEFFICIENTS in
    ln_age_ ← math_log (IZR (age input_data));
    ln_total_chol_ ← math_log (total_cholesterol input_data);
    ln_hdl_ ← math_log (hdl_cholesterol input_data);
    ln_sbp ← math_log (systolic_bp input_data);
    let coefficient_sum :=
      (ln_age coef * ln_age_ +
       ln_total_chol coef * ln_total_chol_ +
       ln_hdl coef * ln_hdl_ +
       (if on_bp_medication input_data then ln_sbp_treated coef
        else ln_sbp_untreated coef) * ln_sbp +
       (if is_smoker input_data then smoker coef else 0) +
       (if has_diabetes input_data then diabetes coef else 0))%R in
    hazard_ratio ← math_exp (coefficient_sum - mean_coefficient_sum coef)%R;
    let risk := (1 - math_pow (baseline_survival coef) hazard_ratio)%R in
    let risk_percentage := py_round_nd_R (risk * 100) 1 in
    let risk_level := _get_risk_level risk_percentage in
    let score := Z.min 100 (py_int_R (risk_percentage * 3)) in
    mret {| risk_percentage := risk_percentage;
            risk_level := risk_level;
            score := score;
            details := Some
              {| d_age := age input_data;
                 d_gender := gender input_data;
                 d_total_cholesterol := total_cholesterol input_data;
                 d_hdl_cholesterol := hdl_cholesterol input_data;
                 d_systolic_bp := systolic_bp input_data;
                 d_coefficient_sum := py_round_nd_R coefficient_sum 4 |} |}.

End Cardiovascular.

(** ** risk_service.py *)

Module RiskService.

(** The columns of [User] and [UserHealthProfile] that the assessments
    read; every column is nullable. *)
Record User := {
  age : option Z;
  gender : option string
}.

Record UserHealthProfile := {
  bmi : option Q;
  waist : option Q;
  systolic_bp : option Q;
  diastolic_bp : option Q;
  on_bp_medication : option bool;
  total_cholesterol : option Q;
  hdl_cholesterol : option Q;
  triglycerides : option Q;
  fasting_glucose : option Q;
  is_smoker : option bool;
  exercise_frequency : option string;
  has_diabetes : option bool;
  family_diabetes : option bool;
  daily_fruit_vegetable : option bool
}.

(** The ['risk_level'] and ['score'] of an assessment. *)
Record Assessment := {
  risk_level : string;
  score : Z
}.

(** [x or d]: [d] when [x] is [None] or falsy (zero, empty, [False]). *)
Definition or_int (x : option Z) (d : Z) : Z :=
  match x with
  | Some v => if (v =? 0)%Z then d else v
  | None => d
  end.

Definition or_float (x : option Q) (d : Q) : Q :=
  match x with
  | Some v => if Qeq_bool v 0 then d else v
  | None => d
  end.

Definition or_str (x : option string) (d : string) : string :=
  match x with
  | Some v => if String.eqb v "" then d else v
  | None => d
  end.

Definition or_False (x : option bool) : bool :=
  match x with
  | Some v => v
  | None => false
  end.

Definition _get_incomplete_data_result : Assessment :=
  {| risk_level := "unknown"; score := 0 |}.


Definition _assess_diabetes (user : User) (profile : option UserHealthProfile)
    : Assessment :=
  match profile with
  | None => _get_incomplete_data_result
  | Some profile =>
    let family_diabetes_ :=
      if or_False (family_diabetes profile) then "first_degree" else "none" in
    let input_data :=
      {| Diabetes.age := or_int (age user) 40;
         Diabetes.bmi := or_float (bmi profile) 24;
         Diabetes.waist := or_float (waist profile) 85;
         Diabetes.gender := or_str (gender user) "男";
         Diabetes.on_bp_medication := or_False (on_bp_medication profile);
         Diabetes.history_high_glucose :=
           match fasting_glucose profile with
           | Some g => if Qeq_bool g 0 then false else Qle_bool (56 # 10) g
           | None => false
           end;
         Diabetes.daily_physical_activity :=
           match exercise_frequency profile with
           | Some f => String.eqb f "3-4/week" || String.eqb f "daily"
           | None => false
           end;
         Diabetes.daily_fruit_vegetable :=
           match daily_fruit_vegetable profile with
           | Some b => b
           | None => true
           end;
         Diabetes.family_diabetes := family_diabetes_ |} in
    let result := Diabetes.calculate input_data in
    {| risk_level := Diabetes.risk_level result;
       score := Diabetes.score result |}
  end.

Definition _assess_metabolic (user : User) (profile : option UserHealthProfile)
    : Assessment :=
  match profile with
  | None => _get_incomplete_data_result
  | Some profile =>
    let input_data :=
      {| Metabolic.waist := or_float (waist profile) 85;
         Metabolic.gender := or_str (gender user) "男";
         Metabolic.triglycerides := or_float (triglycerides profile) 120;
         Metabolic.hdl_cholesterol := or_float (hdl_cholesterol profile) 50;
         Metabolic.systolic_bp := or_float (systolic_bp profile) 120;
         Metabolic.diastolic_bp := or_float (diastolic_bp profile) 80;
         Metabolic.fasting_glucose := or_float (fasting_glucose profile) 5;
         Metabolic.on_bp_medication := or_False (on_bp_medication profile);
         Metabolic.on_lipid_medication := false;
         Metabolic.on_glucose_medication := or_False (has_diabetes profile) |} in
    let result := Metabolic.calculate input_data in
    {| risk_level := Metabolic.risk_level result;
       score := Metabolic.score result |}
  end.

Definition _assess_generic (user : User) (profile : option UserHealthProfile)
    (assessment_type : string) : Assessment :=
  let score := 30%Z in
  let score :=
    match age user with
    | Some a =>
      if (a =? 0)%Z then score
      else if (60 <=? a)%Z then (score + 15)%Z
      else if (45 <=? a)%Z then (score + 5)%Z
      else score
    | None => score
    end in
  let score :=
    match profile with
    | Some profile =>
      let score :=
        match bmi profile with
        | Some b =>
          if negb (Qeq_bool b 0) && Qle_bool 25 b then (score + 10)%Z else score
        | None => score
        end in
      let score :=
        if or_False (is_smoker profile) then (score + 15)%Z else score in
      match exercise_frequency profile with
      | Some f =>
        if String.eqb f "3-4/week" || String.eqb f "daily" then (score - 10)%Z
        else (score + 5)%Z
      | None => (score + 5)%Z
      end
    | None => score
    end in
  let score := Z.max 0 (Z.min 100 score) in
  let risk_level :=
    if (score <? 30)%Z then "low"
    else if (score <? 60)%Z then "medium"
    else "high" in
  {| risk_level := risk_level; score := score |}.

End RiskService.

(** * Vocabulary of the properties *)

(** Definitions used to state and prove the properties below: what the
    specification's words denote, and names for the bodies of the loops. *)

Section MetabolicVocabulary.
Import Metabolic.

(** The five diagnostic criteria, in the words of the class docstring. *)
Definition waist_criterion (i : MetabolicRiskInput) : Prop :=
  default 90 (WAIST_THRESHOLD !! gender i) <= waist i.
Definition triglyceride_criterion (i : MetabolicRiskInput) : Prop :=
  150 <= triglycerides i \/ on_lipid_medication i = true.
Definition hdl_criterion (i : MetabolicRiskInput) : Prop :=
  hdl_cholesterol i < default 40 (HDL_THRESHOLD !! gender i)
  \/ on_lipid_medication i = true.
Definition blood_pressure_criterion (i : MetabolicRiskInput) : Prop :=
  130 <= systolic_bp i \/ 85 <= diastolic_bp i \/ on_bp_medication i = true.
Definition glucose_criterion (i : MetabolicRiskInput) : Prop :=
  (56 # 10) <= fasting_glucose i \/ on_glucose_medication i = true.

Definition criteria_spec (i : MetabolicRiskInput) : list Prop :=
  [waist_criterion i; triglyceride_criterion i; hdl_criterion i;
   blood_pressure_criterion i; glucose_criterion i].

End MetabolicVocabulary.

Section MovingAverageVocabulary.
Import TrendAnalyzer.



End MovingAverageVocabulary.

Section IqrVocabulary.
Import AnomalyDetector.

(** The quartiles by integer-division index and the bounds built on them. *)
Definition iqr_quartiles (data : list Q) : Q * Q :=
  let n := length data in
  (nth (n / 4) (sorted data) 0, nth (3 * n / 4) (sorted data) 0).

Definition iqr_bounds (data : list Q) (multiplier : Q) : Q * Q :=
  let '(q1, q3) := iqr_quartiles data in
  (q1 - multiplier * (q3 - q1), q3 + multiplier * (q3 - q1)).

(** The body of the detection loop for one enumerated element. *)
Definition iqr_entry (lower upper : Q) (p : nat * Q) : list IqrAnomaly :=
  let '(i, value) := p in
  if Qlt_bool value lower || Qlt_bool upper value then
    [{| index := i; value := value;
        lower_bound := py_round_nd lower 1;
        upper_bound := py_round_nd upper 1;
        type := if Qlt_bool upper value then "high" else "low" |}]
  else [].

End IqrVocabulary.

Section MetricScoreVocabulary.
Import HealthScoreCalculator.

(** What every row of the band table satisfies: the optimal band lies
    inside the normal band, whose edges are positive. *)
Definition band_ok (b : Band) : Prop :=
  0 < (normal b).1 /\ (normal b).1 <= (optimal b).1 /\
  (optimal b).1 <= (optimal b).2 /\ (optimal b).2 <= (normal b).2.

End MetricScoreVocabulary.

Section OverallScoreVocabulary.
Import HealthScoreCalculator.

(** The score [calculate_metric_score] returns; it never raises. *)
Definition metric_score (value : Q) (metric_type : string) : Q :=
  match calculate_metric_score value metric_type with
  | Ok s => s
  | Raise _ => 0
  end.

(** The categories of the composite in the order the code visits them: the
    key in [category_scores], the weight, and the unrounded score of the
    category when the input has what it needs. *)
Definition categories (metrics : gmap string Q) : list (string * Q * option Q) :=
  [ ("heart_rate", 15 # 100,
     (fun v => metric_score v "heart_rate") <$> metrics !! "heart_rate");
    ("blood_pressure", 20 # 100,
     match metrics !! "blood_pressure_sys", metrics !! "blood_pressure_dia" with
     | Some sys, Some dia =>
       Some ((metric_score sys "blood_pressure_sys"
              + metric_score dia "blood_pressure_dia") / 2)
     | _, _ => None
     end);
    ("blood_sugar", 15 # 100,
     (fun v => metric_score v "blood_sugar") <$> metrics !! "blood_sugar");
    ("sleep", 15 # 100,
     (fun v => metric_score v "sleep_duration") <$> metrics !! "sleep_duration");
    ("activity", 15 # 100,
     (fun v => metric_score v "steps") <$> metrics !! "steps");
    ("spo2", 10 # 100,
     (fun v => metric_score v "spo2") <$> metrics !! "spo2");
    ("weight", 10 # 100,
     (fun v => metric_score v "bmi") <$> metrics !! "bmi") ].

(** The categories present in the input, with weight and score. *)
Definition present (table : list (string * Q * option Q)) : list (string * Q * Q) :=
  flat_map (fun '(c, w, o) => match o with Some s => [(c, w, s)] | None => [] end)
           table.

Definition weighted_sum_of (l : list (string * Q * Q)) : Q :=
  fold_right Qplus 0 (map (fun '(_, w, s) => s * w) l).

Definition total_weight_of (l : list (string * Q * Q)) : Q :=
  fold_right Qplus 0 (map (fun '(_, w, _) => w) l).

(** The weighted average over the present categories, weights renormalised
    over those categories only. *)
Definition weighted_average (metrics : gmap string Q) : Q :=
  weighted_sum_of (present (categories metrics))
  / total_weight_of (present (categories metrics)).

(** One block of [calculate_overall_score] on the running triple. *)
Definition step (acc : Acc) (row : string * Q * option Q) : Acc :=
  let '(category_scores, weighted_sum, total_weight) := acc in
  let '(c, w, o) := row in
  match o with
  | Some s => (<[c := py_round s]> category_scores, weighted_sum + s * w,
               total_weight + w)
  | None => acc
  end.

(** The tail of [calculate_overall_score], after the seven blocks. *)
Definition finish (acc : Acc) : Res HealthScore :=
  let '(category_scores, weighted_sum, total_weight) := acc in
  overall_score ←
    (if Qlt_bool 0 total_weight then
       q ← py_div weighted_sum total_weight; mret (py_int q)
     else mret 70%Z);
  let level :=
    if (90 <=? overall_score)%Z then "excellent"
    else if (75 <=? overall_score)%Z then "good"
    else if (60 <=? overall_score)%Z then "fair"
    else "poor" in
  mret {| overall_score := overall_score;
          category_scores := category_scores;
          level := level |}.

End OverallScoreVocabulary.

Section TrendVocabulary.
Import TrendAnalyzer.


End TrendVocabulary.

Section ZScoreVocabulary.
Import AnomalyDetector.
Local Open Scope R_scope.






End ZScoreVocabulary.

Section FraminghamVocabulary.
Import Cardiovascular.
Local Open Scope R_scope.

(** The documented input domain. *)
Definition valid_input (i : CardiovascularRiskInput) : Prop :=
  (30 <= age i <= 79)%Z /\ (gender i = "男" \/ gender i = "女") /\
  0 < total_cholesterol i /\ 0 < hdl_cholesterol i /\ 0 < systolic_bp i.

(** The sex-specific table: the male one for ['男'], the female one
    otherwise. *)
Definition coefficients_for (i : CardiovascularRiskInput) : Coefficients :=
  if String.eqb (gender i) "男" then MALE_COEFFICIENTS else FEMALE_COEFFICIENTS.

(** The sum of coefficient times logarithm over the four measured fields,
    with the treated blood-pressure coefficient exactly under medication,
    plus the smoker and diabetes terms. *)
Definition coefficient_sum_of (i : CardiovascularRiskInput) : R :=
  let c := coefficients_for i in
  ln_age c * ln (IZR (age i)) +
  ln_total_chol c * ln (total_cholesterol i) +
  ln_hdl c * ln (hdl_cholesterol i) +
  (if on_bp_medication i then ln_sbp_treated c else ln_sbp_untreated c)
    * ln (systolic_bp i) +
  (if is_smoker i then smoker c else 0) +
  (if has_diabetes i then diabetes c else 0).

(** The argument of [math.exp]. *)
Definition exponent_of (i : CardiovascularRiskInput) : R :=
  coefficient_sum_of i - mean_coefficient_sum (coefficients_for i).

(** [1 - baseline_survival ^ exp (coefficient_sum - mean_coefficient_sum)]. *)
Definition framingham_risk (i : CardiovascularRiskInput) : R :=
  let c := coefficients_for i in
  1 - Rpower (baseline_survival c)
             (exp (coefficient_sum_of i - mean_coefficient_sum c)).

(** A woman of 30 with total cholesterol 150, HDL 90 and systolic
    pressure 90, untreated, not smoking, without diabetes. *)
Definition young_woman : CardiovascularRiskInput :=
  {| age := 30; gender := "女"; total_cholesterol := 150;
     hdl_cholesterol := 90; systolic_bp := 90; on_bp_medication := false;
     is_smoker := false; has_diabetes := false |}.

End FraminghamVocabulary.

Section RegressionVocabulary.


End RegressionVocabulary.

Section AnalysisVocabulary.
Import AnomalyDetector.


End AnalysisVocabulary.

Section FraminghamOrderVocabulary.
Import Cardiovascular.
Local Open Scope R_scope.

(** Two inputs of the same gender and medication status, the second with
    every risk factor at least as bad as in the first. *)
Definition at_least_as_risky (i i' : CardiovascularRiskInput) : Prop :=
  gender i' = gender i /\ on_bp_medication i' = on_bp_medication i /\
  (age i <= age i')%Z /\
  total_cholesterol i <= total_cholesterol i' /\
  hdl_cholesterol i' <= hdl_cholesterol i /\
  systolic_bp i <= systolic_bp i' /\
  (is_smoker i = true -> is_smoker i' = true) /\
  (has_diabetes i = true -> has_diabetes i' = true).

End FraminghamOrderVocabulary.

(** * Properties *)

(** ** Facts about the Python primitives *)

Lemma Qlt_bool_iff (x y : Q) : Qlt_bool x y = true <-> x < y.
Proof.
  unfold Qlt_bool. rewrite negb_true_iff, <- not_true_iff_false, Qle_bool_iff.
  split; [apply Qnot_le_lt | apply Qlt_not_le].
Qed.

Lemma Qlt_bool_false_iff (x y : Q) : Qlt_bool x y = false <-> y <= x.
Proof.
  unfold Qlt_bool. rewrite negb_false_iff. apply Qle_bool_iff.
Qed.

Lemma Qle_bool_false_iff (x y : Q) : Qle_bool x y = false <-> y < x.
Proof.
  rewrite <- not_true_iff_false, Qle_bool_iff.
  split; [apply Qnot_le_lt | apply Qlt_not_le].
Qed.

Lemma Res_bind_Ok {A B} (a : A) (k : A -> Res B) : (Ok a ≫= k) = k a.
Proof. reflexivity. Qed.

(** Running the [Res] monad: binds of [Ok], matches and lets. *)
Ltac res_simpl := cbv beta iota zeta delta [mbind mret Res_bind Res_ret].

(** Case analysis on a boolean comparison of rationals, keeping the
    corresponding order fact. *)
Tactic Notation "q_case" constr(b) "as" ident(H) :=
  destruct b eqn:H;
  [ first [apply Qle_bool_iff in H | apply Qlt_bool_iff in H]
  | first [apply Qle_bool_false_iff in H | apply Qlt_bool_false_iff in H] ].

(** [int(a / b)] on non-negative integers is the floor division. *)
Lemma py_int_div_nonneg (a : Z) (b : positive) :
  (0 <= a)%Z -> py_int (inject_Z a / (Z.pos b # 1)) = (a / Z.pos b)%Z.
Proof.
  intros Ha. unfold py_int.
  assert (Hq : inject_Z a / (Z.pos b # 1) = (a * 1 # 1 * b)) by reflexivity.
  rewrite Hq.
  replace (Qle_bool 0 (a * 1 # 1 * b)) with true.
  - unfold Qfloor. now rewrite Z.mul_1_r, Pos.mul_1_l.
  - symmetry. apply Qle_bool_iff. unfold Qle. simpl. lia.
Qed.

(** ** FINDRISC *)

Section FindriscProperties.
Import Diabetes.

Lemma _score_age_range (a : Z) : (0 <= _score_age a <= 4)%Z.
Proof. unfold _score_age. repeat case_match; lia. Qed.

Lemma _score_bmi_range (b : Q) : (0 <= _score_bmi b <= 3)%Z.
Proof. unfold _score_bmi. repeat case_match; lia. Qed.

Lemma _score_waist_range (w : Q) (g : string) : (0 <= _score_waist w g <= 4)%Z.
Proof. unfold _score_waist. repeat case_match; lia. Qed.

Lemma _score_family_history_range (f : string) :
  (0 <= _score_family_history f <= 5)%Z.
Proof. unfold _score_family_history. repeat case_match; lia. Qed.

Lemma _get_risk_level_tiers (t : Z) :
  ((t < 7)%Z -> _get_risk_level t = ("low", 1)) /\
  ((7 <= t <= 11)%Z -> _get_risk_level t = ("low", 4)) /\
  ((12 <= t <= 14)%Z -> _get_risk_level t = ("medium", 17)) /\
  ((15 <= t <= 20)%Z -> _get_risk_level t = ("high", 33)) /\
  ((21 <= t)%Z -> _get_risk_level t = ("high", 50)).
Proof.
  unfold _get_risk_level.
  repeat split; intros H; repeat case_match; try reflexivity; lia.
Qed.

(** C2, as the code has it: the total is the sum of the eight sub-scores
    recorded in [score_breakdown], each of which is a function of its own
    input field only; the total lies in [0, 26]; the tier and its literal
    percentage are fixed by the total with boundaries at 7, 12, 15 and 21;
    and the normalised score is [min(100, int(total * 100 / 26))], the
    quotient truncated, not rounded. *)
Theorem findrisc_calculate_contract (i : DiabetesRiskInput) :
  let r := calculate i in
  let b := score_breakdown r in
  (sb_age b = _score_age (age i) /\
   sb_bmi b = _score_bmi (bmi i) /\
   sb_waist b = _score_waist (waist i) (gender i) /\
   sb_activity b = (if daily_physical_activity i then 0 else 2)%Z /\
   sb_diet b = (if daily_fruit_vegetable i then 0 else 1)%Z /\
   sb_bp_medication b = (if on_bp_medication i then 2 else 0)%Z /\
   sb_high_glucose b = (if history_high_glucose i then 5 else 0)%Z /\
   sb_family b = _score_family_history (family_diabetes i)) /\
  total_score r =
    (sb_age b + sb_bmi b + sb_waist b + sb_activity b + sb_diet b +
     sb_bp_medication b + sb_high_glucose b + sb_family b)%Z /\
  (0 <= total_score r <= 26)%Z /\
  ((total_score r < 7)%Z ->
     risk_level r = "low" /\ risk_percentage r = 1) /\
  ((7 <= total_score r <= 11)%Z ->
     risk_level r = "low" /\ risk_percentage r = 4) /\
  ((12 <= total_score r <= 14)%Z ->
     risk_level r = "medium" /\ risk_percentage r = 17) /\
  ((15 <= total_score r <= 20)%Z ->
     risk_level r = "high" /\ risk_percentage r = 33) /\
  ((21 <= total_score r)%Z ->
     risk_level r = "high" /\ risk_percentage r = 50) /\
  score r = Z.min 100 (total_score r * 100 / 26)%Z.
Proof.
  unfold calculate.
  set (t := (0 + _ + _ + _ + _ + _ + _ + _ + _)%Z).
  destruct (_get_risk_level t) as [lvl pct] eqn:Htier.
  cbn [score_breakdown total_score risk_level risk_percentage score
       sb_age sb_bmi sb_waist sb_activity sb_diet sb_bp_medication
       sb_high_glucose sb_family].
  assert (Ht : (0 <= t <= 26)%Z).
  { subst t.
    pose proof (_score_age_range (age i)).
    pose proof (_score_bmi_range (bmi i)).
    pose proof (_score_waist_range (waist i) (gender i)).
    pose proof (_score_family_history_range (family_diabetes i)).
    destruct (daily_physical_activity i), (daily_fruit_vegetable i),
      (on_bp_medication i), (history_high_glucose i); lia. }
  destruct (_get_risk_level_tiers t) as (T1 & T2 & T3 & T4 & T5).
  split; [repeat split |].
  split; [subst t; lia |].
  split; [exact Ht |].
  split; [intros H; rewrite (T1 H) in Htier; now inversion Htier |].
  split; [intros H; rewrite (T2 H) in Htier; now inversion Htier |].
  split; [intros H; rewrite (T3 H) in Htier; now inversion Htier |].
  split; [intros H; rewrite (T4 H) in Htier; now inversion Htier |].
  split; [intros H; rewrite (T5 H) in Htier; now inversion Htier |].
  rewrite (py_int_div_nonneg (t * 100) 26) by lia. reflexivity.
Qed.

(** C2 as stated fails on the normalised score: with a single inactive
    lifestyle answer the total is 2, the code returns [int(200 / 26) = 7]
    where rounding would give 8. *)
Lemma findrisc_score_is_truncated :
  let r := calculate_diabetes_risk 30 22 70 "男" false false false true "none" in
  total_score r = 2%Z /\
  score r = 7%Z /\
  Z.min 100 (py_round (inject_Z (total_score r * 100) / 26)) = 8%Z.
Proof. vm_compute. repeat split. Qed.

End FindriscProperties.

(** ** Metabolic syndrome *)

Section MetabolicProperties.
Import Metabolic.

Lemma _get_risk_level_tiers_metabolic (c : Z) :
  (c = 0%Z -> _get_risk_level c = "low") /\
  ((1 <= c <= 2)%Z -> _get_risk_level c = "medium") /\
  ((3 <= c)%Z -> _get_risk_level c = "high").
Proof.
  unfold _get_risk_level.
  repeat split; intros H; repeat case_match; try reflexivity; lia.
Qed.

Lemma threshold_genders :
  WAIST_THRESHOLD !! "男" = Some 90 /\ WAIST_THRESHOLD !! "女" = Some 80 /\
  HDL_THRESHOLD !! "男" = Some 40 /\ HDL_THRESHOLD !! "女" = Some 50.
Proof. repeat split; reflexivity. Qed.

(** C3: the syndrome flag is exactly [criteria_met >= 3], the score is
    [criteria_met * 20], the level is low / medium / high for 0 / 1-2 / 3+,
    and [criteria_met] counts the entries of [criteria_details] that are
    met, the k-th of which is met exactly when the k-th criterion (abnormal
    measurement, or the corresponding treatment) holds. *)
Theorem metabolic_calculate_contract (i : MetabolicRiskInput) :
  let r := calculate i in
  (has_metabolic_syndrome r = true <-> (3 <= criteria_met r)%Z) /\
  score r = (criteria_met r * 20)%Z /\
  (criteria_met r = 0%Z -> risk_level r = "low") /\
  ((1 <= criteria_met r <= 2)%Z -> risk_level r = "medium") /\
  ((3 <= criteria_met r)%Z -> risk_level r = "high") /\
  criteria_met r = Z.of_nat (length (filter (fun c => met c) (criteria_details r))) /\
  (0 <= criteria_met r <= 5)%Z /\
  Forall2 (fun c P => met c = true <-> P) (criteria_details r) (criteria_spec i).
Proof.
  unfold calculate.
  set (b1 := Qle_bool _ (waist i)).
  set (b2 := Qle_bool 150 (triglycerides i) || on_lipid_medication i).
  set (b3 := Qlt_bool (hdl_cholesterol i) _ || on_lipid_medication i).
  set (b4 := Qle_bool 130 (systolic_bp i) || Qle_bool 85 (diastolic_bp i)
             || on_bp_medication i).
  set (b5 := Qle_bool (56 # 10) (fasting_glucose i) || on_glucose_medication i).
  cbn [has_metabolic_syndrome criteria_met score risk_level criteria_details app].
  set (c := if b5 then _ else _).
  destruct (_get_risk_level_tiers_metabolic c) as (L0 & L1 & L2).
  split; [apply Z.leb_le |].
  split; [reflexivity |].
  split; [exact L0 |]. split; [exact L1 |]. split; [exact L2 |].
  split; [| split].
  - subst c. cbn [filter met]. destruct b1, b2, b3, b4, b5; reflexivity.
  - subst c. destruct b1, b2, b3, b4, b5; lia.
  - unfold criteria_spec, waist_criterion, triglyceride_criterion, hdl_criterion,
      blood_pressure_criterion, glucose_criterion.
    repeat (apply List.Forall2_cons); try apply List.Forall2_nil; cbn [met];
      subst b1 b2 b3 b4 b5;
      rewrite ?orb_true_iff, ?Qle_bool_iff, ?Qlt_bool_iff; tauto.
Qed.

End MetabolicProperties.

(** ** Lists, sums and loops *)



Lemma res_mapM_ok {A B} (f : A -> Res B) (g : A -> B) (l : list A) :
  (forall x, In x l -> f x = Ok (g x)) -> res_mapM f l = Ok (map g l).
Proof.
  induction l as [| x l IH]; intros H; simpl.
  - reflexivity.
  - rewrite (H x) by now left. simpl.
    rewrite IH by (intros y Hy; apply H; now right). reflexivity.
Qed.


Lemma py_div_ok (x y : Q) : ~ y == 0 -> py_div x y = Ok (x / y).
Proof.
  intros Hy. unfold py_div.
  destruct (Qeq_bool y 0) eqn:E; [| reflexivity].
  apply Qeq_bool_iff in E. contradiction.
Qed.

Lemma inject_Z_pos_nonzero (z : Z) : (0 < z)%Z -> ~ inject_Z z == 0.
Proof. intros Hz H. unfold Qeq in H. simpl in H. lia. Qed.

(** ** Moving average *)

Section MovingAverage.
Import TrendAnalyzer.






End MovingAverage.

(** ** Sorting and enumeration *)

Lemma Qle_total : Total Qle.
Proof.
  intros x y. destruct (Qlt_le_dec x y) as [H | H];
    [left; apply Qlt_le_weak, H | right; exact H].
Qed.

Lemma Qle_transitive : Transitive Qle.
Proof. intros x y z. apply Qle_trans. Qed.

Lemma sorted_StronglySorted (data : list Q) : StronglySorted Qle (sorted data).
Proof.
  apply (@StronglySorted_merge_sort _ Qle _ Qle_transitive Qle_total).
Qed.

Lemma sorted_Permutation (data : list Q) : Permutation data (sorted data).
Proof. symmetry. apply merge_sort_Permutation. Qed.

Lemma sorted_length (data : list Q) : length (sorted data) = length data.
Proof. symmetry. apply Permutation_length, sorted_Permutation. Qed.

Lemma StronglySorted_nth_le (l : list Q) (i j : nat) :
  StronglySorted Qle l -> (i <= j)%nat -> (j < length l)%nat ->
  nth i l 0 <= nth j l 0.
Proof.
  intros Hs. revert i j. induction Hs as [| x l Hl IH Hx]; intros i j Hij Hj.
  - simpl in Hj. lia.
  - destruct i as [| i], j as [| j]; simpl in *; try lia.
    + apply Qle_refl.
    + rewrite List.Forall_forall in Hx. apply Hx, nth_In. lia.
    + apply IH; lia.
Qed.




Lemma py_index_ok {A} (d : A) (l : list A) (i : nat) :
  (i < length l)%nat -> py_index l i = Ok (nth i l d).
Proof.
  intros Hi. unfold py_index.
  destruct (nth_error l i) eqn:E.
  - now rewrite (nth_error_nth _ _ d E).
  - apply nth_error_None in E. lia.
Qed.

(** ** IQR detection *)

Section IqrDetection.
Import AnomalyDetector.

Lemma detect_iqr_long (data : list Q) (multiplier : Q) :
  (4 <= length data)%nat ->
  detect_iqr data multiplier
  = Ok (concat (map (iqr_entry (iqr_bounds data multiplier).1
                               (iqr_bounds data multiplier).2)
                    (enumerate data))).
Proof.
  intros Hn. unfold detect_iqr.
  destruct (Nat.ltb_spec (length data) 4) as [H | _]; [lia |].
  rewrite sorted_length.
  assert (H1 : (length data / 4 < length (sorted data))%nat).
  { rewrite sorted_length. apply Nat.Div0.div_lt_upper_bound. lia. }
  assert (H3 : (3 * length data / 4 < length (sorted data))%nat).
  { rewrite sorted_length. apply Nat.Div0.div_lt_upper_bound. lia. }
  rewrite (py_index_ok 0 _ _ H1), Res_bind_Ok.
  rewrite (py_index_ok 0 _ _ H3), Res_bind_Ok.
  reflexivity.
Qed.

Lemma detect_iqr_short (data : list Q) (multiplier : Q) :
  (length data < 4)%nat -> detect_iqr data multiplier = Ok [].
Proof.
  intros Hn. unfold detect_iqr.
  destruct (Nat.ltb_spec (length data) 4); [reflexivity | lia].
Qed.

Lemma iqr_quartiles_ordered (data : list Q) :
  (4 <= length data)%nat -> (iqr_quartiles data).1 <= (iqr_quartiles data).2.
Proof.
  intros Hn. unfold iqr_quartiles. cbn [fst snd].
  apply StronglySorted_nth_le.
  - apply sorted_StronglySorted.
  - apply Nat.Div0.div_le_mono. lia.
  - rewrite sorted_length. apply Nat.Div0.div_lt_upper_bound. lia.
Qed.


Lemma iqr_entry_In (lower upper : Q) (i : nat) (v : Q) (a : IqrAnomaly) :
  In a (iqr_entry lower upper (i, v)) ->
  iqr_entry lower upper (i, v) = [a] /\
  index a = i /\ value a = v /\ (v < lower \/ upper < v) /\
  lower_bound a = py_round_nd lower 1 /\ upper_bound a = py_round_nd upper 1 /\
  type a = (if Qlt_bool upper v then "high" else "low").
Proof.
  unfold iqr_entry.
  destruct (Qlt_bool v lower || Qlt_bool upper v) eqn:E; [| intros []].
  intros [<- | []]. simpl.
  apply orb_true_iff in E. rewrite !Qlt_bool_iff in E. tauto.
Qed.



End IqrDetection.

(** ** Per-metric health score *)

Section MetricScore.
Import HealthScoreCalculator.

Lemma ranges_keys (m : string) (b : Band) :
  ranges !! m = Some b ->
  In m ["heart_rate"; "blood_pressure_sys"; "blood_pressure_dia"; "blood_sugar";
        "spo2"; "sleep_duration"; "steps"; "bmi"].
Proof.
  unfold ranges. intros H.
  repeat (apply lookup_insert_Some in H;
          destruct H as [[<- _] | [_ H]]; [simpl; tauto |]).
  rewrite lookup_empty in H. discriminate.
Qed.

Lemma ranges_band_ok (m : string) (b : Band) : ranges !! m = Some b -> band_ok b.
Proof.
  intros H. pose proof (ranges_keys m b H) as Hin. simpl in Hin.
  repeat (destruct Hin as [<- | Hin];
          [vm_compute in H; injection H as <-; unfold band_ok; simpl; lra |]).
  contradiction.
Qed.

Lemma Qdiv_unit_interval (a b : Q) : 0 <= a -> a < b -> 0 <= a / b /\ a / b < 1.
Proof.
  intros Ha Hab. assert (Hb : 0 < b) by lra. split.
  - apply Qle_shift_div_l; [exact Hb | lra].
  - apply Qlt_shift_div_r; [exact Hb | lra].
Qed.

Lemma py_max_0_spec (q : Q) :
  0 <= py_max 0 q /\ q <= py_max 0 q /\ (py_max 0 q == 0 \/ py_max 0 q == q).
Proof.
  unfold py_max. destruct (Qlt_bool 0 q) eqn:E.
  - apply Qlt_bool_iff in E.
    split; [lra |]. split; [lra |]. right. reflexivity.
  - apply Qlt_bool_false_iff in E.
    split; [lra |]. split; [lra |]. left. reflexivity.
Qed.

(** The three regimes of a banded metric, for any row of the table. *)
Lemma metric_score_cases (value : Q) (metric_type : string) (band : Band) :
  ranges !! metric_type = Some band ->
  let '(o0, o1) := optimal band in
  let '(n0, n1) := normal band in
  exists s,
    calculate_metric_score value metric_type = Ok s /\
    (o0 <= value <= o1 -> s = 95) /\
    (n0 <= value < o0 ->
       s == 70 + (value - n0) / (o0 - n0) * 20 /\
       s == 90 - (o0 - value) / (o0 - n0) * 20 /\ 70 <= s < 90) /\
    (o1 < value <= n1 ->
       s == 70 + (n1 - value) / (n1 - o1) * 20 /\
       s == 90 - (value - o1) / (n1 - o1) * 20 /\ 70 <= s < 90) /\
    (value < n0 ->
       s == py_max 0 (value / n0) * 70 /\ 0 <= s < 70) /\
    (n1 < value ->
       s == py_max 0 (1 - (value - n1) / n1) * 70 /\ 0 <= s < 70).
Proof.
  intros Hband.
  pose proof (ranges_band_ok _ _ Hband) as Hok.
  unfold calculate_metric_score. rewrite Hband.
  unfold band_ok in Hok.
  destruct (optimal band) as [o0 o1], (normal band) as [n0 n1].
  cbn [fst snd] in *. destruct Hok as (Hn0 & H0 & H1 & H2).
  q_case (Qle_bool o0 value) as E1; q_case (Qle_bool value o1) as E2; cbn [andb].
  1: { exists 95. split; [reflexivity |]. repeat split; intros; lra. }
  all: q_case (Qle_bool n0 value) as E3; q_case (Qle_bool value n1) as E4; cbn [andb].
  all: q_case (Qlt_bool value o0) as E5; q_case (Qlt_bool value n0) as E6.
  all: try lra.
  all: rewrite py_div_ok by lra; rewrite Res_bind_Ok; cbn [mret Res_ret];
    try rewrite Res_bind_Ok; cbn [mret Res_ret];
    eexists; (split; [reflexivity |]).
  - (* above the optimal band, inside the normal band *)
    destruct (Qdiv_unit_interval (n1 - value) (n1 - o1)) as [Ha Hb]; [lra | lra |].
    assert (Hsum : (n1 - value) / (n1 - o1) + (value - o1) / (n1 - o1) == 1)
      by (field; lra).
    repeat split; intros; try lra.
  - (* above the normal band *)
    destruct (py_max_0_spec (1 - (value - n1) / n1)) as (Ha & Hb & Hc).
    assert (Hq : 0 < (value - n1) / n1).
    { apply Qlt_shift_div_l; lra. }
    repeat split; intros; try lra.
  - (* below the optimal band, inside the normal band *)
    destruct (Qdiv_unit_interval (value - n0) (o0 - n0)) as [Ha Hb]; [lra | lra |].
    assert (Hsum : (value - n0) / (o0 - n0) + (o0 - value) / (o0 - n0) == 1)
      by (field; lra).
    repeat split; intros; try lra.
  - (* below the normal band *)
    destruct (py_max_0_spec (value / n0)) as (Ha & Hb & Hc).
    assert (Hq : value / n0 < 1).
    { apply Qlt_shift_div_r; lra. }
    repeat split; intros; try lra.
Qed.



End MetricScore.

(** ** Medical thresholds *)

Section MedicalThresholds.
Import AnomalyDetector.

Lemma spo2_thresholds :
  exists t,
    MEDICAL_THRESHOLDS !! "spo2" = Some t /\ unit t = "%" /\
    numeric t !! "critical_low" = Some 90 /\ numeric t !! "low" = Some 94 /\
    numeric t !! "high" = Some 100 /\ numeric t !! "critical_high" = Some 100.
Proof. eexists. split; [vm_compute; reflexivity |]. repeat split. Qed.

Lemma Qle_bool_true (x y : Q) : x <= y -> Qle_bool x y = true.
Proof. apply Qle_bool_iff. Qed.

Lemma Qle_bool_false (x y : Q) : y < x -> Qle_bool x y = false.
Proof. apply Qle_bool_false_iff. Qed.

(** C9: the spo2 row has ['high'] and ['critical_high'] both at 100, and
    every spo2 value of at least 100 is returned as a critical high
    anomaly, never as [None]; this includes 100 itself, which
    [calculate_metric_score] places inside the optimal band. *)
Theorem spo2_at_least_100_is_critical_high (value : Q) :
  100 <= value ->
  detect_medical_anomaly value "spo2"
  = Ok (Some {| m_value := value; m_metric_type := "spo2"; m_unit := "%";
                severity := "critical"; m_type := Some "high" |})
  /\ detect_medical_anomaly value "spo2" <> Ok None
  /\ (exists t, MEDICAL_THRESHOLDS !! "spo2" = Some t /\
                numeric t !! "high" = Some 100 /\
                numeric t !! "critical_high" = Some 100)
  /\ HealthScoreCalculator.calculate_metric_score 100 "spo2" = Ok 95.
Proof.
  intros Hv.
  destruct spo2_thresholds as (t & Ht & Hu & Hcl & Hl & Hh & Hch).
  assert (E : detect_medical_anomaly value "spo2"
              = Ok (Some {| m_value := value; m_metric_type := "spo2";
                            m_unit := "%"; severity := "critical";
                            m_type := Some "high" |})).
  { unfold detect_medical_anomaly, py_getitem.
    rewrite Ht. res_simpl. rewrite Hu, Hcl, Hl, Hch. res_simpl.
    rewrite (Qle_bool_false value 90) by lra. res_simpl.
    rewrite (Qle_bool_false value 94) by lra. res_simpl.
    rewrite (Qle_bool_true 100 value) by exact Hv.
    reflexivity. }
  split; [exact E |]. split; [rewrite E; discriminate |].
  split; [exists t; auto | reflexivity].
Qed.

(** A reading of exactly 100. *)
Lemma spo2_at_least_100_is_critical_high_witness :
  detect_medical_anomaly 100 "spo2"
  = Ok (Some {| m_value := 100; m_metric_type := "spo2"; m_unit := "%";
                severity := "critical"; m_type := Some "high" |}).
Proof.
  apply (spo2_at_least_100_is_critical_high 100). discriminate.
Defined.

End MedicalThresholds.

(** ** Composite health score *)

Section OverallScore.
Import HealthScoreCalculator.

Lemma calculate_metric_score_total (value : Q) (metric_type : string) :
  calculate_metric_score value metric_type = Ok (metric_score value metric_type).
Proof.
  unfold metric_score.
  destruct (ranges !! metric_type) as [band |] eqn:Hband.
  - pose proof (metric_score_cases value metric_type band Hband) as H.
    destruct (optimal band), (normal band). destruct H as (s & -> & _).
    reflexivity.
  - unfold calculate_metric_score. now rewrite Hband.
Qed.

Lemma add_category_step (metrics : gmap string Q) (metric category : string)
    (w : Q) (acc : Acc) :
  WEIGHTS !! category = Some w ->
  add_category metrics metric category acc
  = Ok (step acc (category, w, (fun v => metric_score v metric) <$> metrics !! metric)).
Proof.
  intros Hw. unfold add_category, step, py_getitem.
  destruct acc as [[cs ws] tw]. rewrite Hw.
  destruct (metrics !! metric) as [v |]; [| reflexivity].
  rewrite calculate_metric_score_total. reflexivity.
Qed.

Lemma add_blood_pressure_step (metrics : gmap string Q) (acc : Acc) :
  add_blood_pressure metrics acc
  = Ok (step acc
          ("blood_pressure", 20 # 100,
           match metrics !! "blood_pressure_sys", metrics !! "blood_pressure_dia" with
           | Some sys, Some dia =>
             Some ((metric_score sys "blood_pressure_sys"
                    + metric_score dia "blood_pressure_dia") / 2)
           | _, _ => None
           end)).
Proof.
  unfold add_blood_pressure, step. destruct acc as [[cs ws] tw].
  destruct (metrics !! "blood_pressure_sys") as [sys |]; [| reflexivity].
  destruct (metrics !! "blood_pressure_dia") as [dia |]; [| reflexivity].
  rewrite !calculate_metric_score_total. reflexivity.
Qed.

Lemma calculate_overall_score_fold (metrics : gmap string Q) :
  calculate_overall_score metrics
  = finish (fold_left step (categories metrics) (∅, 0, 0)).
Proof.
  unfold calculate_overall_score.
  rewrite (add_category_step _ _ _ (15 # 100)) by reflexivity. rewrite Res_bind_Ok.
  rewrite add_blood_pressure_step, Res_bind_Ok.
  rewrite (add_category_step _ _ _ (15 # 100)) by reflexivity. rewrite Res_bind_Ok.
  rewrite (add_category_step _ _ _ (15 # 100)) by reflexivity. rewrite Res_bind_Ok.
  rewrite (add_category_step _ _ _ (15 # 100)) by reflexivity. rewrite Res_bind_Ok.
  rewrite (add_category_step _ _ _ (10 # 100)) by reflexivity. rewrite Res_bind_Ok.
  rewrite (add_category_step _ _ _ (10 # 100)) by reflexivity. rewrite Res_bind_Ok.
  reflexivity.
Qed.

Lemma In_present (table : list (string * Q * option Q)) (c : string) (w s : Q) :
  In (c, w, s) (present table) <-> In (c, w, Some s) table.
Proof.
  unfold present. rewrite in_flat_map. split.
  - intros ([[c' w'] [s' |]] & Hin & H); simpl in H; [| contradiction].
    destruct H as [H | []]. now inversion H; subst.
  - intros H. exists (c, w, Some s). split; [exact H | now left].
Qed.

Lemma fold_step_sums (table : list (string * Q * option Q)) (acc : Acc) :
  (fold_left step table acc).1.2
    == acc.1.2 + weighted_sum_of (present table) /\
  (fold_left step table acc).2
    == acc.2 + total_weight_of (present table).
Proof.
  revert acc. induction table as [| [[c w] [s |]] table IH]; intros [[cs ws] tw].
  - unfold weighted_sum_of, total_weight_of. simpl. split; ring.
  - simpl fold_left. destruct (IH (<[c := py_round s]> cs, ws + s * w, tw + w))
      as [H1 H2].
    rewrite H1, H2. unfold weighted_sum_of, total_weight_of. simpl. split; ring.
  - simpl fold_left. apply IH.
Qed.




Lemma categories_weights (metrics : gmap string Q) (c : string) (w s : Q) :
  In (c, w, s) (present (categories metrics)) -> 0 < w.
Proof.
  rewrite In_present. unfold categories. simpl.
  intros H. repeat (destruct H as [H | H]; [inversion H; reflexivity |]).
  contradiction.
Qed.

Lemma total_weight_positive (l : list (string * Q * Q)) :
  (forall c w s, In (c, w, s) l -> 0 < w) -> l <> [] -> 0 < total_weight_of l.
Proof.
  intros Hpos Hne.
  assert (H0 : forall l', (forall c w s, In (c, w, s) l' -> 0 < w) ->
                          0 <= total_weight_of l').
  { induction l' as [| [[c w] s] l' IH]; intros H; unfold total_weight_of; simpl.
    - lra.
    - assert (0 < w) by (apply (H c w s); now left).
      assert (0 <= total_weight_of l') by (apply IH; intros; eapply H; right; eauto).
      unfold total_weight_of in *. lra. }
  destruct l as [| [[c w] s] l]; [contradiction |].
  assert (0 < w) by (apply (Hpos c w s); now left).
  assert (0 <= total_weight_of l) by (apply H0; intros; eapply Hpos; right; eauto).
  unfold total_weight_of in *. simpl. lra.
Qed.

Lemma py_int_comp (x y : Q) : x == y -> py_int x = py_int y.
Proof.
  intros H. unfold py_int, Qceiling.
  rewrite (Qfloor_comp _ _ H).
  assert (Hn : - x == - y) by now rewrite H.
  rewrite (Qfloor_comp _ _ Hn).
  destruct (Qle_bool 0 x) eqn:Ex, (Qle_bool 0 y) eqn:Ey; try reflexivity.
  - apply Qle_bool_iff in Ex. apply Qle_bool_false_iff in Ey. lra.
  - apply Qle_bool_iff in Ey. apply Qle_bool_false_iff in Ex. lra.
Qed.

(** The result of [calculate_overall_score], for every input. *)
Lemma calculate_overall_score_result (metrics : gmap string Q) :
  exists r,
    calculate_overall_score metrics = Ok r /\
    category_scores r = (fold_left step (categories metrics) (∅, 0, 0)).1.1 /\
    (present (categories metrics) = [] -> overall_score r = 70%Z) /\
    (present (categories metrics) <> [] ->
     overall_score r = py_int (weighted_average metrics)).
Proof.
  rewrite calculate_overall_score_fold.
  destruct (fold_step_sums (categories metrics) (∅, 0, 0)) as [Hws Htw].
  destruct (fold_left step (categories metrics) (∅, 0, 0)) as [[cs ws] tw].
  cbn [fst snd] in Hws, Htw. unfold finish.
  destruct (present (categories metrics)) as [| row rows] eqn:Hp.
  - assert (Hz : tw == 0) by (rewrite Htw; unfold total_weight_of; simpl; ring).
    rewrite (proj2 (Qlt_bool_false_iff 0 tw)) by lra.
    eexists. split; [reflexivity |]. split; [reflexivity |].
    split; [reflexivity | congruence].
  - assert (Hpos : 0 < tw).
    { rewrite Htw, Qplus_0_l. rewrite <- Hp. apply total_weight_positive.
      - apply categories_weights.
      - rewrite Hp. discriminate. }
    rewrite (proj2 (Qlt_bool_iff 0 tw)) by exact Hpos.
    rewrite py_div_ok by lra. res_simpl.
    eexists. split; [reflexivity |]. split; [reflexivity |].
    split; [discriminate |]. intros _. cbn [overall_score].
    apply py_int_comp. unfold weighted_average. rewrite Hp.
    rewrite Hws, Htw. rewrite !Qplus_0_l. reflexivity.
Qed.








End OverallScore.

(** ** Trend analysis never raises *)

Section TrendTotality.
Import TrendAnalyzer.


Lemma linear_regression_total (data : list Q) :
  exists p, linear_regression data = Ok p.
Proof.
  unfold linear_regression.
  destruct (Nat.ltb_spec (length data) 2) as [H | H]; [eexists; reflexivity |].
  rewrite py_div_ok by (apply inject_Z_pos_nonzero; lia). res_simpl.
  match goal with |- context [Qeq_bool ?d 0] => destruct (Qeq_bool d 0) eqn:E end.
  - eexists; reflexivity.
  - apply Qeq_bool_neq in E. rewrite py_div_ok by exact E. res_simpl.
    eexists; reflexivity.
Qed.

Lemma py_last_ok {A} (d : A) (l : list A) :
  l <> [] -> py_last l = Ok (nth (length l - 1) l d).
Proof.
  intros Hl. unfold py_last. destruct l as [| x l]; [contradiction |].
  apply py_index_ok. simpl. lia.
Qed.

Lemma predict_next_values_total (data : list Q) (steps : Z) :
  exists l, predict_next_values data steps = Ok l.
Proof.
  unfold predict_next_values.
  destruct (length data <? 3)%nat.
  - destruct data as [| x data]; [eexists; reflexivity |].
    rewrite (py_last_ok 0) by discriminate. res_simpl. eexists; reflexivity.
  - destruct (linear_regression_total (recent14 data)) as ([slope intercept] & ->).
    res_simpl. eexists; reflexivity.
Qed.



End TrendTotality.

(** ** Z-score detection *)

Section ZScoreDetection.
Import AnomalyDetector.
Local Open Scope R_scope.












End ZScoreDetection.

(** ** Minimum sample counts *)

Section SampleCounts.
Import TrendAnalyzer AnomalyDetector.




End SampleCounts.

(** ** Rounding and truncation of real numbers *)

Section RealRounding.
Local Open Scope R_scope.

Lemma Int_part_bounds (x : R) : IZR (Int_part x) <= x < IZR (Int_part x) + 1.
Proof. destruct (base_Int_part x). lra. Qed.

Lemma Int_part_unique (x : R) (z : Z) : IZR z <= x < IZR z + 1 -> Int_part x = z.
Proof. intros H. symmetry. apply Int_part_spec. lra. Qed.

Lemma Rabs_le_bounds (a b : R) : Rabs a <= b -> - b <= a <= b.
Proof. unfold Rabs. destruct (Rcase_abs a); lra. Qed.

(** [round] picks an integer at distance at most one half. *)
Lemma py_round_R_nearest (x : R) : Rabs (x - IZR (py_round_R x)) <= 1 / 2.
Proof.
  pose proof (Int_part_bounds x) as H. unfold py_round_R.
  destruct (Rlt_dec (x - IZR (Int_part x)) (1 / 2)) as [H1 | H1].
  - apply Rabs_le. lra.
  - destruct (Rlt_dec (1 / 2) (x - IZR (Int_part x))) as [H2 | H2].
    + rewrite plus_IZR. apply Rabs_le. lra.
    + destruct (Z.even (Int_part x)); [| rewrite plus_IZR]; apply Rabs_le; lra.
Qed.


Lemma py_round_R_nonneg (x : R) : 0 <= x -> (0 <= py_round_R x)%Z.
Proof.
  intros Hx. pose proof (py_round_R_nearest x) as H.
  apply Rabs_le_bounds in H.
  destruct (Z_le_gt_dec 0 (py_round_R x)) as [Hz | Hz]; [exact Hz |].
  assert (py_round_R x <= -1)%Z by lia.
  assert (IZR (py_round_R x) <= -1) by (now apply IZR_le).
  lra.
Qed.

Lemma py_int_R_nonneg (x : R) : 0 <= x -> py_int_R x = Int_part x.
Proof. intros H. unfold py_int_R. destruct (Rle_dec 0 x); [reflexivity | lra]. Qed.

End RealRounding.

(** ** Bounds on the exponential and the logarithm *)

(** Turns the [INR n] of a bound on [exp (INR n * z)] into a real constant. *)
Ltac exp_const H :=
  rewrite INR_IZR_INZ in H;
  match type of H with
  | context [Z.of_nat ?n] =>
    let v := eval vm_compute in (Z.of_nat n) in change (Z.of_nat n) with v in H
  end.

Section ExpBounds.
Local Open Scope R_scope.

Lemma exp_pow_nat (n : nat) (z : R) : exp z ^ n = exp (INR n * z).
Proof.
  induction n as [| n IH].
  - simpl. now rewrite Rmult_0_l, exp_0.
  - rewrite S_INR. simpl. rewrite IH, <- exp_plus. f_equal. ring.
Qed.

Lemma exp_lower_bound (n : nat) (z : R) :
  0 <= 1 + z -> (1 + z) ^ n <= exp (INR n * z).
Proof.
  intros H. rewrite <- exp_pow_nat. apply pow_incr.
  split; [exact H | apply exp_ineq1_le].
Qed.

Lemma exp_upper_bound (n : nat) (z : R) :
  z < 1 -> exp (INR n * z) <= / (1 - z) ^ n.
Proof.
  intros H.
  replace (INR n * z) with (- (INR n * - z)) by ring.
  rewrite exp_Ropp. apply Rinv_le_contravar.
  - apply pow_lt. lra.
  - apply (exp_lower_bound n (- z)). lra.
Qed.

Lemma ln_le_of_exp (x y : R) : 0 < x -> x <= exp y -> ln x <= y.
Proof.
  intros Hx H. destruct (Rle_lt_dec (ln x) y) as [Hle | Hlt]; [exact Hle |].
  apply exp_increasing in Hlt. rewrite exp_ln in Hlt by exact Hx. lra.
Qed.

Lemma ln_ge_of_exp (x y : R) : 0 < x -> exp y <= x -> y <= ln x.
Proof.
  intros Hx H. destruct (Rle_lt_dec y (ln x)) as [Hle | Hlt]; [exact Hle |].
  apply exp_increasing in Hlt. rewrite exp_ln in Hlt by exact Hx. lra.
Qed.

Lemma exp_le_mono (x y : R) : x <= y -> exp x <= exp y.
Proof.
  intros [H | ->]; [left; now apply exp_increasing | right; reflexivity].
Qed.

Lemma ln_2_bounds : 0.69 <= ln 2 <= 0.70.
Proof.
  split.
  - apply ln_ge_of_exp; [lra |].
    pose proof (exp_upper_bound 128 (0.69 / 128) ltac:(lra)) as H.
    exp_const H.
    replace (128 * (0.69 / 128)) with 0.69 in H by lra.
    eapply Rle_trans; [exact H |].
    apply Rle_trans with (/ (1 / 2)); [| lra].
    apply Rinv_le_contravar; lra.
  - apply ln_le_of_exp; [lra |].
    pose proof (exp_lower_bound 64 (0.70 / 64) ltac:(lra)) as H.
    exp_const H.
    replace (64 * (0.70 / 64)) with 0.70 in H by lra.
    eapply Rle_trans; [| exact H]. lra.
Qed.

Lemma ln_3_bounds : 1.09 <= ln 3 <= 1.10.
Proof.
  split.
  - apply ln_ge_of_exp; [lra |].
    pose proof (exp_upper_bound 128 (1.09 / 128) ltac:(lra)) as H.
    exp_const H.
    replace (128 * (1.09 / 128)) with 1.09 in H by lra.
    eapply Rle_trans; [exact H |].
    apply Rle_trans with (/ (1 / 3)); [| lra].
    apply Rinv_le_contravar; lra.
  - apply ln_le_of_exp; [lra |].
    pose proof (exp_lower_bound 512 (1.10 / 512) ltac:(lra)) as H.
    exp_const H.
    replace (512 * (1.10 / 512)) with 1.10 in H by lra.
    eapply Rle_trans; [| exact H]. lra.
Qed.

Lemma ln_5_bounds : 1.60 <= ln 5 <= 1.62.
Proof.
  split.
  - apply ln_ge_of_exp; [lra |].
    pose proof (exp_upper_bound 256 (1.60 / 256) ltac:(lra)) as H.
    exp_const H.
    replace (256 * (1.60 / 256)) with 1.60 in H by lra.
    eapply Rle_trans; [exact H |].
    apply Rle_trans with (/ (1 / 5)); [| lra].
    apply Rinv_le_contravar; lra.
  - apply ln_le_of_exp; [lra |].
    pose proof (exp_lower_bound 128 (1.62 / 128) ltac:(lra)) as H.
    exp_const H.
    replace (128 * (1.62 / 128)) with 1.62 in H by lra.
    eapply Rle_trans; [| exact H]. lra.
Qed.

End ExpBounds.

(** ** Framingham risk *)

Section Framingham.
Import Cardiovascular.
Local Open Scope R_scope.

Lemma _validate_input_valid (i : CardiovascularRiskInput) :
  valid_input i -> _validate_input i = true.
Proof.
  intros (Hage & Hg & Hc & Hh & Hs). unfold _validate_input.
  destruct (Z.ltb_spec (age i) 30); [lia |].
  destruct (Z.ltb_spec 79 (age i)); [lia |]. cbn [orb].
  replace (String.eqb (gender i) "男" || String.eqb (gender i) "女") with true
    by (destruct Hg as [-> | ->]; reflexivity).
  cbn [negb].
  destruct (Rle_dec (total_cholesterol i) 0); [lra |].
  destruct (Rle_dec (hdl_cholesterol i) 0); [lra |].
  destruct (Rle_dec (systolic_bp i) 0); [lra | reflexivity].
Qed.

Lemma math_log_ok (x : R) : 0 < x -> math_log x = Ok (ln x).
Proof. intros H. unfold math_log. destruct (Rlt_dec 0 x); [reflexivity | lra]. Qed.

Lemma baseline_survival_range (i : CardiovascularRiskInput) :
  0 < baseline_survival (coefficients_for i) < 1.
Proof.
  unfold coefficients_for.
  destruct (String.eqb (gender i) "男"); simpl; lra.
Qed.

Lemma framingham_risk_range (i : CardiovascularRiskInput) :
  0 < framingham_risk i < 1.
Proof.
  unfold framingham_risk. cbv zeta.
  pose proof (baseline_survival_range i) as [Hb0 Hb1].
  set (b := baseline_survival (coefficients_for i)) in *.
  set (e := exp _). assert (He : 0 < e) by apply exp_pos.
  unfold Rpower.
  assert (Hln : ln b < 0) by (rewrite <- ln_1; now apply ln_increasing).
  assert (Hneg : e * ln b < 0) by nra.
  pose proof (exp_pos (e * ln b)).
  assert (exp (e * ln b) < 1) by (rewrite <- exp_0; now apply exp_increasing).
  lra.
Qed.

(** The exponent bands in which [math.exp] surely fits or surely
    overflows. *)
Lemma exp_fits (x : R) : x <= 700 -> exp x <= max_float.
Proof.
  intros Hx. destruct ln_2_bounds as [Hl _].
  apply Rle_trans with (exp (INR 1015 * ln 2)).
  - apply exp_le_mono.
    replace (INR 1015) with 1015 by (rewrite INR_IZR_INZ; reflexivity). lra.
  - rewrite <- exp_pow_nat, exp_ln by lra. unfold max_float.
    apply Rle_trans with (2 ^ 1023); [apply Rle_pow; [lra | lia] |].
    assert (Hp : 0 < 2 ^ 1023) by (apply pow_lt; lra).
    assert (Hq : 0 < / 2 ^ 52 <= 1).
    { split; [apply Rinv_0_lt_compat, pow_lt; lra |].
      rewrite <- Rinv_1. apply Rinv_le_contravar; [lra |].
      apply pow_R1_Rle. lra. }
    nra.
Qed.


(** The result on a valid input: an [OverflowError] from [math.exp], or
    the assessment. *)
Lemma calculate_valid (i : CardiovascularRiskInput) :
  valid_input i ->
  (max_float < exp (exponent_of i) /\ calculate i = Raise OverflowError) \/
  (exp (exponent_of i) <= max_float /\
   exists d,
     calculate i
     = Ok {| risk_percentage := py_round_nd_R (framingham_risk i * 100) 1;
             risk_level :=
               _get_risk_level (py_round_nd_R (framingham_risk i * 100) 1);
             score :=
               Z.min 100
                 (py_int_R (py_round_nd_R (framingham_risk i * 100) 1 * 3));
             details := Some d |}).
Proof.
  intros Hv. pose proof Hv as (Hage & Hg & Hc & Hh & Hs).
  unfold calculate. rewrite (_validate_input_valid i Hv). cbn [negb].
  rewrite (math_log_ok (IZR (age i))) by (apply IZR_lt; lia).
  rewrite Res_bind_Ok.
  rewrite (math_log_ok _ Hc), Res_bind_Ok.
  rewrite (math_log_ok _ Hh), Res_bind_Ok.
  rewrite (math_log_ok _ Hs), Res_bind_Ok.
  unfold math_exp.
  change (exp _) with (exp (exponent_of i)).
  destruct (Rlt_dec max_float (exp (exponent_of i))) as [Ho | Ho].
  - left. split; [exact Ho | reflexivity].
  - right. split; [lra |]. rewrite Res_bind_Ok. eexists. reflexivity.
Qed.

Lemma calculate_valid_fits (i : CardiovascularRiskInput) :
  valid_input i -> exponent_of i <= 700 ->
  exists d,
    calculate i
    = Ok {| risk_percentage := py_round_nd_R (framingham_risk i * 100) 1;
            risk_level :=
              _get_risk_level (py_round_nd_R (framingham_risk i * 100) 1);
            score :=
              Z.min 100
                (py_int_R (py_round_nd_R (framingham_risk i * 100) 1 * 3));
            details := Some d |}.
Proof.
  intros Hv Hx. destruct (calculate_valid i Hv) as [[Ho _] | [_ H]]; [| exact H].
  pose proof (exp_fits _ Hx). lra.
Qed.

Lemma risk_percentage_nonneg (i : CardiovascularRiskInput) :
  0 <= py_round_nd_R (framingham_risk i * 100) 1.
Proof.
  unfold py_round_nd_R.
  pose proof (framingham_risk_range i) as [H0 H1].
  assert (Hk : (0 <= py_round_R (framingham_risk i * 100 * 10 ^ 1))%Z).
  { apply py_round_R_nonneg. simpl. nra. }
  apply IZR_le in Hk. simpl. 
  apply Rmult_le_pos; [exact Hk |]. left. apply Rinv_0_lt_compat. lra.
Qed.


Lemma young_woman_valid : valid_input young_woman.
Proof.
  unfold valid_input, young_woman. simpl.
  split; [lia |]. split; [now right |]. lra.
Qed.

Lemma young_woman_exponent :
  -3.1225 <= coefficient_sum_of young_woman - 26.1931 <= -2.8541.
Proof.
  unfold coefficient_sum_of, coefficients_for, young_woman. simpl.
  assert (H30 : ln 30 = ln 2 + ln 3 + ln 5).
  { replace 30 with (2 * 3 * 5) by lra. rewrite !ln_mult by lra. ring. }
  assert (H150 : ln 150 = ln 2 + ln 3 + 2 * ln 5).
  { replace 150 with (2 * 3 * 5 * 5) by lra. rewrite !ln_mult by lra. ring. }
  assert (H90 : ln 90 = ln 2 + 2 * ln 3 + ln 5).
  { replace 90 with (2 * 3 * 3 * 5) by lra. rewrite !ln_mult by lra. ring. }
  rewrite H30, H150, H90.
  pose proof ln_2_bounds. pose proof ln_3_bounds. pose proof ln_5_bounds.
  lra.
Qed.

Lemma young_woman_exponent_of : exponent_of young_woman <= 700.
Proof.
  unfold exponent_of.
  change (mean_coefficient_sum (coefficients_for young_woman)) with 26.1931.
  destruct young_woman_exponent. lra.
Qed.






End Framingham.

(** * Further properties of the analytics code *)

(** ** Range and shape of the per-metric score *)

Section MetricScoreShape.
Import HealthScoreCalculator.

(** The regime of a value against a row of the band table. *)
Lemma band_regimes (b : Band) (v : Q) :
  ((optimal b).1 <= v <= (optimal b).2) \/
  ((normal b).1 <= v < (optimal b).1) \/
  ((optimal b).2 < v <= (normal b).2) \/
  v < (normal b).1 \/ (normal b).2 < v.
Proof.
  destruct (Qlt_le_dec v (normal b).1); [tauto |].
  destruct (Qlt_le_dec (normal b).2 v); [tauto |].
  destruct (Qlt_le_dec v (optimal b).1); [tauto |].
  destruct (Qlt_le_dec (optimal b).2 v); tauto.
Qed.

Lemma metric_score_shape (value : Q) (metric_type : string) :
  metric_score value metric_type = 95 \/
  (70 <= metric_score value metric_type < 90) \/
  (0 <= metric_score value metric_type < 70).
Proof.
  pose proof (calculate_metric_score_total value metric_type) as Htot.
  destruct (ranges !! metric_type) as [band |] eqn:Hband.
  - pose proof (metric_score_cases value metric_type band Hband) as H.
    pose proof (band_regimes band value) as Hreg.
    destruct (optimal band) as [o0 o1], (normal band) as [n0 n1].
    cbn [fst snd] in Hreg.
    destruct H as (s & Hs & H1 & H2 & H3 & H4 & H5).
    rewrite Htot in Hs. injection Hs as <-.
    destruct Hreg as [R | [R | [R | [R | R]]]].
    + left. now apply H1.
    + right. left. now apply H2.
    + right. left. now apply H3.
    + right. right. now apply H4.
    + right. right. now apply H5.
  - unfold calculate_metric_score in Htot. rewrite Hband in Htot.
    injection Htot as <-. right. left. split; [apply Qle_refl | reflexivity].
Qed.


End MetricScoreShape.

(** ** Rounding of rationals *)

Section RationalRounding.

Lemma Qfloor_bounds (x : Q) :
  inject_Z (Qfloor x) <= x /\ x < inject_Z (Qfloor x) + 1.
Proof.
  split; [apply Qfloor_le |].
  pose proof (Qlt_floor x) as H. rewrite inject_Z_plus in H. exact H.
Qed.

Lemma py_round_cases (x : Q) :
  (x - inject_Z (Qfloor x) < 1 # 2 /\ py_round x = Qfloor x) \/
  (1 # 2 < x - inject_Z (Qfloor x) /\ py_round x = (Qfloor x + 1)%Z) \/
  (x - inject_Z (Qfloor x) == 1 # 2 /\
   py_round x = if Z.even (Qfloor x) then Qfloor x else (Qfloor x + 1)%Z).
Proof.
  unfold py_round.
  destruct (Qcompare (x - inject_Z (Qfloor x)) (1 # 2)) eqn:E.
  - right. right. split; [now apply Qeq_alt | reflexivity].
  - left. split; [now apply Qlt_alt | reflexivity].
  - right. left. split; [now apply Qgt_alt | reflexivity].
Qed.

Lemma py_round_between (x : Q) :
  (Qfloor x <= py_round x <= Qfloor x + 1)%Z.
Proof.
  destruct (py_round_cases x) as [[_ ->] | [[_ ->] | [_ ->]]]; try lia.
  destruct (Z.even (Qfloor x)); lia.
Qed.

Lemma py_round_inject_Z (z : Z) : py_round (inject_Z z) = z.
Proof.
  destruct (py_round_cases (inject_Z z)) as [[_ H] | [[H _] | [H _]]];
    rewrite Qfloor_Z in *; [exact H | |].
  - exfalso. assert (E : inject_Z z - inject_Z z == 0) by ring.
    rewrite E in H. discriminate H.
  - exfalso. assert (E : inject_Z z - inject_Z z == 0) by ring.
    rewrite E in H. discriminate H.
Qed.

(** [round] is monotone. *)
Lemma py_round_mono (x y : Q) : x <= y -> (py_round x <= py_round y)%Z.
Proof.
  intros Hxy.
  pose proof (Qfloor_resp_le _ _ Hxy) as Hf.
  pose proof (py_round_between x). pose proof (py_round_between y).
  destruct (Z.eq_dec (Qfloor x) (Qfloor y)) as [E | E]; [| lia].
  destruct (py_round_cases x) as [[Hx ->] | [[Hx ->] | [Hx ->]]];
    destruct (py_round_cases y) as [[Hy ->] | [[Hy ->] | [Hy ->]]];
    rewrite ?E in *; try lia; try lra;
    destruct (Z.even (Qfloor y)); try lia; lra.
Qed.

Lemma py_round_in_range (x : Q) (a b : Z) :
  inject_Z a <= x <= inject_Z b -> (a <= py_round x <= b)%Z.
Proof.
  intros [Ha Hb]. apply py_round_mono in Ha, Hb.
  rewrite py_round_inject_Z in Ha, Hb. lia.
Qed.

Lemma py_int_in_range (x : Q) (b : Z) :
  0 <= x <= inject_Z b -> (0 <= py_int x <= b)%Z.
Proof.
  intros [H0 Hb]. unfold py_int.
  rewrite (proj2 (Qle_bool_iff 0 x) H0).
  pose proof (Qfloor_resp_le _ _ H0) as L. pose proof (Qfloor_resp_le _ _ Hb) as U.
  rewrite Qfloor_Z in U. change (Qfloor 0) with 0%Z in L. lia.
Qed.

End RationalRounding.

(** ** Range of the composite score *)

Section OverallScoreRange.
Import HealthScoreCalculator.

Lemma weighted_sum_bounds (lo hi : Q) (l : list (string * Q * Q)) :
  (forall c w s, In (c, w, s) l -> 0 < w /\ lo <= s <= hi) ->
  lo * total_weight_of l <= weighted_sum_of l <= hi * total_weight_of l.
Proof.
  induction l as [| [[c w] s] l IH]; intros H;
    unfold weighted_sum_of, total_weight_of in *; simpl.
  - lra.
  - destruct (H c w s) as (Hw & Hlo & Hhi); [now left |].
    specialize (IH (fun c' w' s' Hin => H c' w' s' (or_intror Hin))).
    nra.
Qed.

Lemma category_score_range (metrics : gmap string Q) (c : string) (w s : Q) :
  In (c, w, Some s) (categories metrics) -> 0 <= s <= 95.
Proof.
  assert (Hm : forall v m, 0 <= metric_score v m <= 95).
  { intros v m. destruct (metric_score_shape v m) as [-> | [H | H]]; lra. }
  unfold categories. simpl. intros H.
  repeat (destruct H as [H | H];
          [ inversion H as [[Hc Hw Hs]]; clear H;
            first [ destruct (metrics !! _) as [v |]; [| discriminate Hs];
                    injection Hs as <-; apply Hm
                  | idtac ] |]); [| contradiction].
  destruct (metrics !! "blood_pressure_sys") as [sys |]; [| discriminate Hs].
  destruct (metrics !! "blood_pressure_dia") as [dia |]; [| discriminate Hs].
  injection Hs as <-.
  pose proof (Hm sys "blood_pressure_sys"). pose proof (Hm dia "blood_pressure_dia").
  split.
  - apply Qle_shift_div_l; lra.
  - apply Qle_shift_div_r; lra.
Qed.

Lemma fold_step_scores_Forall (P : Z -> Prop) (table : list (string * Q * option Q))
    (acc : Acc) :
  map_Forall (fun _ z => P z) acc.1.1 ->
  (forall c w s, In (c, w, Some s) table -> P (py_round s)) ->
  map_Forall (fun _ z => P z) (fold_left step table acc).1.1.
Proof.
  revert acc. induction table as [| [[c w] [s |]] table IH];
    intros [[cs ws] tw] Hacc Htab; [exact Hacc | |].
  - simpl fold_left. apply IH.
    + simpl. apply map_Forall_insert_2; [| exact Hacc].
      apply (Htab c w s). now left.
    + intros c' w' s' H. apply (Htab c' w' s'). now right.
  - simpl fold_left. apply IH; [exact Hacc |].
    intros c' w' s' H. apply (Htab c' w' s'). now right.
Qed.

Lemma finish_level (acc : Acc) (r : HealthScore) :
  finish acc = Ok r ->
  level r =
    if (90 <=? overall_score r)%Z then "excellent"
    else if (75 <=? overall_score r)%Z then "good"
    else if (60 <=? overall_score r)%Z then "fair"
    else "poor".
Proof.
  destruct acc as [[cs ws] tw]. unfold finish.
  destruct (Qlt_bool 0 tw).
  - destruct (py_div ws tw) as [q | e]; [| discriminate].
    res_simpl. intros H. injection H as <-. reflexivity.
  - res_simpl. intros H. injection H as <-. reflexivity.
Qed.

(** X2: for every input mapping the composite score is defined and lies in
    [0, 95], so does every entry of [category_scores], and the level is
    excellent from 90, good from 75, fair from 60 and poor below. *)
Theorem overall_score_between_0_and_95 (metrics : gmap string Q) :
  exists r,
    calculate_overall_score metrics = Ok r /\
    (0 <= overall_score r <= 95)%Z /\
    (forall c z, category_scores r !! c = Some z -> (0 <= z <= 95)%Z) /\
    (level r = "excellent" <-> (90 <= overall_score r)%Z) /\
    (level r = "good" <-> (75 <= overall_score r < 90)%Z) /\
    (level r = "fair" <-> (60 <= overall_score r < 75)%Z) /\
    (level r = "poor" <-> (overall_score r < 60)%Z).
Proof.
  destruct (calculate_overall_score_result metrics) as (r & Hr & Hcs & H0 & H1).
  exists r. split; [exact Hr |].
  assert (Hrange : (0 <= overall_score r <= 95)%Z).
  { destruct (present (categories metrics)) as [| row rows] eqn:Hp.
    - rewrite H0 by reflexivity. lia.
    - rewrite H1 by discriminate.
      apply py_int_in_range. unfold weighted_average. rewrite Hp.
      assert (Hrows : forall c w s, In (c, w, s) (row :: rows) ->
                                    0 < w /\ 0 <= s <= 95).
      { intros c w s Hin. rewrite <- Hp in Hin. split.
        - eapply categories_weights; exact Hin.
        - apply In_present in Hin. eapply category_score_range; exact Hin. }
      pose proof (weighted_sum_bounds 0 95 _ Hrows) as [Hlo Hhi].
      assert (Hpos : 0 < total_weight_of (row :: rows)).
      { apply total_weight_positive; [| discriminate].
        intros c w s Hin. apply (Hrows c w s Hin). }
      split.
      + apply Qle_shift_div_l; [exact Hpos | lra].
      + apply Qle_shift_div_r; [exact Hpos | exact Hhi]. }
  split; [exact Hrange |]. split.
  - rewrite Hcs. intros c z Hz.
    apply (fold_step_scores_Forall (fun z => (0 <= z <= 95)%Z)
             (categories metrics) (∅, 0, 0)) in Hz; [exact Hz | |].
    + simpl. apply map_Forall_empty.
    + intros c' w s Hin. apply py_round_in_range.
      apply (category_score_range metrics c' w s Hin).
  - rewrite calculate_overall_score_fold in Hr.
    rewrite (finish_level _ _ Hr).
    destruct (Z.leb_spec 90 (overall_score r));
      [repeat split; intros; try reflexivity; try discriminate; lia |].
    destruct (Z.leb_spec 75 (overall_score r));
      [repeat split; intros; try reflexivity; try discriminate; lia |].
    destruct (Z.leb_spec 60 (overall_score r));
      repeat split; intros; try reflexivity; try discriminate; lia.
Qed.

End OverallScoreRange.

(** ** Monotonicity of the per-metric score *)

Section MetricScoreMonotone.
Import HealthScoreCalculator.

Lemma Qdiv_le_mono (a b d : Q) : 0 < d -> a <= b -> a / d <= b / d.
Proof.
  intros Hd Hab. unfold Qdiv. apply Qmult_le_compat_r; [exact Hab |].
  apply Qlt_le_weak, Qinv_lt_0_compat, Hd.
Qed.

Lemma py_max_0_mono (a b : Q) : a <= b -> py_max 0 a <= py_max 0 b.
Proof.
  intros Hab. unfold py_max.
  destruct (Qlt_bool 0 a) eqn:Ea, (Qlt_bool 0 b) eqn:Eb;
    rewrite ?Qlt_bool_iff, ?Qlt_bool_false_iff in *; lra.
Qed.

(** X3: for a metric with a band table the score never decreases while a
    value moves up towards the optimal band and never increases while it
    moves up away from it: of two values on the same side of the optimal
    band, the one farther from it never scores higher. *)
Theorem metric_score_monotone (metric_type : string) (band : Band) (v1 v2 : Q) :
  ranges !! metric_type = Some band ->
  v1 <= v2 ->
  exists s1 s2,
    calculate_metric_score v1 metric_type = Ok s1 /\
    calculate_metric_score v2 metric_type = Ok s2 /\
    (v2 <= (optimal band).2 -> s1 <= s2) /\
    ((optimal band).1 <= v1 -> s2 <= s1).
Proof.
  intros Hband Hv.
  pose proof (ranges_band_ok _ _ Hband) as Hok.
  pose proof (metric_score_cases v1 metric_type band Hband) as C1.
  pose proof (metric_score_cases v2 metric_type band Hband) as C2.
  pose proof (band_regimes band v1) as R1.
  pose proof (band_regimes band v2) as R2.
  unfold band_ok in Hok.
  destruct (optimal band) as [o0 o1], (normal band) as [n0 n1].
  cbn [fst snd] in *. destruct Hok as (Hn0 & H0 & H1 & H2).
  destruct C1 as (s1 & Hs1 & A1 & A2 & A3 & A4 & A5).
  destruct C2 as (s2 & Hs2 & B1 & B2 & B3 & B4 & B5).
  exists s1, s2. split; [exact Hs1 |]. split; [exact Hs2 |].
  assert (M2 : n0 < o0 -> (v1 - n0) / (o0 - n0) <= (v2 - n0) / (o0 - n0))
    by (intros; apply Qdiv_le_mono; lra).
  assert (M3 : o1 < n1 -> (n1 - v2) / (n1 - o1) <= (n1 - v1) / (n1 - o1))
    by (intros; apply Qdiv_le_mono; lra).
  assert (M4 : py_max 0 (v1 / n0) <= py_max 0 (v2 / n0))
    by (apply py_max_0_mono, Qdiv_le_mono; lra).
  assert (M5 : py_max 0 (1 - (v2 - n1) / n1) <= py_max 0 (1 - (v1 - n1) / n1)).
  { apply py_max_0_mono.
    assert ((v1 - n1) / n1 <= (v2 - n1) / n1) by (apply Qdiv_le_mono; lra).
    lra. }
  destruct R1 as [R1 | [R1 | [R1 | [R1 | R1]]]];
    destruct R2 as [R2 | [R2 | [R2 | [R2 | R2]]]];
    try (exfalso; lra);
    repeat match goal with
           | H : ?P -> _, R : ?P |- _ => specialize (H R)
           end;
    subst; split; intros; try lra;
    try (specialize (M2 ltac:(lra)); lra);
    try (specialize (M3 ltac:(lra)); lra).
Qed.

(** [metric_score_monotone] on heart rates 45 and 55, both below the
    optimal band. *)
Lemma metric_score_monotone_witness :
  exists s1 s2,
    calculate_metric_score 45 "heart_rate" = Ok s1 /\
    calculate_metric_score 55 "heart_rate" = Ok s2 /\ s1 <= s2.
Proof.
  destruct (metric_score_monotone "heart_rate"
              {| optimal := (60, 80); normal := (50, 100) |} 45 55)
    as (s1 & s2 & H1 & H2 & Hup & _).
  - reflexivity.
  - discriminate.
  - exists s1, s2. split; [exact H1 |]. split; [exact H2 |].
    apply Hup. discriminate.
Defined.

End MetricScoreMonotone.

(** ** Classification by medical thresholds *)

Section MedicalClassification.
Import AnomalyDetector.

Lemma medical_thresholds_ordered (m : string) (t : Thresholds) (cl l h ch : Q) :
  MEDICAL_THRESHOLDS !! m = Some t ->
  numeric t !! "critical_low" = Some cl -> numeric t !! "low" = Some l ->
  numeric t !! "high" = Some h -> numeric t !! "critical_high" = Some ch ->
  cl < l /\ l < h /\ h <= ch.
Proof.
  unfold MEDICAL_THRESHOLDS. intros H Hcl Hl Hh Hch.
  repeat (apply lookup_insert_Some in H;
          destruct H as [[_ <-] | [_ H]];
          [ vm_compute in Hcl, Hl, Hh, Hch;
            first [ discriminate Hcl
                  | injection Hcl as <-; injection Hl as <-;
                    injection Hh as <-; injection Hch as <-;
                    repeat split; discriminate ] |]).
  rewrite lookup_empty in H. discriminate.
Qed.

(** The five pieces of the value line for a row with the four levels. *)
Lemma medical_anomaly_cases (value : Q) (metric_type : string)
    (t : Thresholds) (cl l h ch : Q) :
  MEDICAL_THRESHOLDS !! metric_type = Some t ->
  numeric t !! "critical_low" = Some cl -> numeric t !! "low" = Some l ->
  numeric t !! "high" = Some h -> numeric t !! "critical_high" = Some ch ->
  let report (sev ty : string) :=
    Ok (Some {| m_value := value; m_metric_type := metric_type;
                m_unit := unit t; severity := sev; m_type := Some ty |}) in
  cl < l /\ l < h /\ h <= ch /\
  (value <= cl ->
     detect_medical_anomaly value metric_type = report "critical" "low") /\
  (cl < value <= l ->
     detect_medical_anomaly value metric_type = report "warning" "low") /\
  (l < value < h ->
     detect_medical_anomaly value metric_type = Ok None) /\
  (h <= value < ch ->
     detect_medical_anomaly value metric_type = report "warning" "high") /\
  (ch <= value ->
     detect_medical_anomaly value metric_type = report "critical" "high").
Proof.
  intros Ht Hcl Hl Hh Hch report.
  destruct (medical_thresholds_ordered _ _ _ _ _ _ Ht Hcl Hl Hh Hch)
    as (O1 & O2 & O3).
  split; [exact O1 |]. split; [exact O2 |]. split; [exact O3 |].
  unfold detect_medical_anomaly, py_getitem, report.
  rewrite Ht. res_simpl. rewrite Hcl, Hl, Hh, Hch. res_simpl.
  repeat split; intros Hv;
    q_case (Qle_bool value cl) as E1; try lra; try reflexivity;
    q_case (Qle_bool value l) as E2; try lra; try reflexivity;
    q_case (Qle_bool ch value) as E3; try lra; try reflexivity;
    q_case (Qle_bool h value) as E4; try lra; reflexivity.
Qed.

(** X4: for a metric whose threshold row has the four levels, the value
    line is cut into five pieces, in this order: critical low up to
    [critical_low], warning low up to [low], no anomaly strictly between
    [low] and [high], warning high from [high], critical high from
    [critical_high]; bounds are inclusive on the anomalous side. *)
Theorem medical_anomaly_regimes (value : Q) (metric_type : string)
    (t : Thresholds) (cl l h ch : Q) :
  MEDICAL_THRESHOLDS !! metric_type = Some t ->
  numeric t !! "critical_low" = Some cl -> numeric t !! "low" = Some l ->
  numeric t !! "high" = Some h -> numeric t !! "critical_high" = Some ch ->
  let report (sev ty : string) :=
    Ok (Some {| m_value := value; m_metric_type := metric_type;
                m_unit := unit t; severity := sev; m_type := Some ty |}) in
  cl < l /\ l < h /\ h <= ch /\
  (value <= cl ->
     detect_medical_anomaly value metric_type = report "critical" "low") /\
  (cl < value <= l ->
     detect_medical_anomaly value metric_type = report "warning" "low") /\
  (l < value < h ->
     detect_medical_anomaly value metric_type = Ok None) /\
  (h <= value < ch ->
     detect_medical_anomaly value metric_type = report "warning" "high") /\
  (ch <= value ->
     detect_medical_anomaly value metric_type = report "critical" "high").
Proof. exact (medical_anomaly_cases value metric_type t cl l h ch). Qed.

(** [medical_anomaly_regimes] on the heart-rate row, at 45. *)
Lemma medical_anomaly_regimes_witness :
  detect_medical_anomaly 45 "heart_rate"
  = Ok (Some {| m_value := 45; m_metric_type := "heart_rate"; m_unit := "bpm";
                severity := "warning"; m_type := Some "low" |}).
Proof.
  refine (proj1 (proj2 (proj2 (proj2 (proj2
    (medical_anomaly_regimes 45 "heart_rate"
       {| numeric := <["critical_low" := 40]> (<["low" := 50]>
                     (<["high" := 100]> (<["critical_high" := 120]> ∅)));
          unit := "bpm" |} 40 50 100 120 _ _ _ _ _))))) _);
    try reflexivity.
  split; [reflexivity | discriminate].
Defined.

(** A metric without a threshold row, and the weight row, which has no
    ['critical_low'], never yield a medical anomaly. *)
Lemma no_medical_anomaly_without_levels (value : Q) (metric_type : string) :
  (MEDICAL_THRESHOLDS !! metric_type = None \/
   exists t, MEDICAL_THRESHOLDS !! metric_type = Some t /\
             numeric t !! "critical_low" = None) ->
  detect_medical_anomaly value metric_type = Ok None.
Proof.
  unfold detect_medical_anomaly.
  intros [-> | (t & -> & ->)]; reflexivity.
Qed.

Lemma levels_match_normal_band (m : string) (t : Thresholds) :
  MEDICAL_THRESHOLDS !! m = Some t ->
  is_Some (numeric t !! "critical_low") ->
  exists cl l h ch band,
    numeric t !! "critical_low" = Some cl /\ numeric t !! "low" = Some l /\
    numeric t !! "high" = Some h /\ numeric t !! "critical_high" = Some ch /\
    HealthScoreCalculator.ranges !! m = Some band /\
    (HealthScoreCalculator.normal band).1 = l /\
    (HealthScoreCalculator.normal band).2 = h.
Proof.
  unfold MEDICAL_THRESHOLDS. intros H [x Hx].
  repeat (apply lookup_insert_Some in H;
          destruct H as [[<- <-] | [_ H]];
          [ first [ discriminate Hx
                  | do 5 eexists; repeat split; vm_compute; reflexivity ] |]).
  rewrite lookup_empty in H. discriminate.
Qed.

(** X5: for the metrics with medical levels, a value that raises no medical
    anomaly lies in the normal band of the score table and scores at least
    70; so a score below 70 always comes with a medical anomaly. *)
Theorem no_medical_anomaly_scores_at_least_70 (value : Q) (metric_type : string)
    (t : Thresholds) :
  MEDICAL_THRESHOLDS !! metric_type = Some t ->
  is_Some (numeric t !! "critical_low") ->
  detect_medical_anomaly value metric_type = Ok None ->
  exists s,
    HealthScoreCalculator.calculate_metric_score value metric_type = Ok s /\
    70 <= s <= 95.
Proof.
  intros Ht Hlev Hnone.
  destruct (levels_match_normal_band _ _ Ht Hlev)
    as (cl & l & h & ch & band & Hcl & Hl & Hh & Hch & Hband & Hn0 & Hn1).
  destruct (medical_anomaly_cases value metric_type t cl l h ch Ht Hcl Hl Hh Hch)
    as (O1 & O2 & O3 & R1 & R2 & _ & R4 & R5).
  assert (Hv : l < value < h).
  { destruct (Qlt_le_dec cl value) as [A | A];
      [| rewrite (R1 A) in Hnone; discriminate].
    destruct (Qlt_le_dec l value) as [B | B];
      [| rewrite (R2 (conj A B)) in Hnone; discriminate].
    destruct (Qlt_le_dec value h) as [C | C]; [split; assumption |].
    destruct (Qlt_le_dec value ch) as [D | D];
      [rewrite (R4 (conj C D)) in Hnone | rewrite (R5 D) in Hnone]; discriminate. }
  pose proof (metric_score_cases value metric_type band Hband) as C.
  pose proof (band_regimes band value) as Reg.
  destruct (HealthScoreCalculator.optimal band) as [o0 o1],
    (HealthScoreCalculator.normal band) as [n0 n1].
  cbn [fst snd] in *. subst n0 n1.
  destruct C as (s & Hs & A1 & A2 & A3 & A4 & A5).
  exists s. split; [exact Hs |].
  destruct Reg as [R | [R | [R | [R | R]]]]; try lra.
  rewrite (A1 R). split; discriminate.
Qed.

(** [no_medical_anomaly_scores_at_least_70] at heart rate 90. *)
Lemma no_medical_anomaly_scores_at_least_70_witness :
  exists s,
    HealthScoreCalculator.calculate_metric_score 90 "heart_rate" = Ok s /\
    70 <= s <= 95.
Proof.
  apply (no_medical_anomaly_scores_at_least_70 90 "heart_rate"
           {| numeric := <["critical_low" := 40]> (<["low" := 50]>
                         (<["high" := 100]> (<["critical_high" := 120]> ∅)));
              unit := "bpm" |}).
  - reflexivity.
  - exists 40. reflexivity.
  - reflexivity.
Defined.

End MedicalClassification.

(** ** Sums of rationals over lists *)

Section RationalSums.
Context {A : Type}.






End RationalSums.





(** ** Linear regression *)

Section LinearRegression.
Import TrendAnalyzer.







End LinearRegression.

(** ** Forecast *)

Section Forecast.
Import TrendAnalyzer.



Lemma predict_next_values_long (data : list Q) (steps : Z) :
  (3 <= length data)%nat ->
  exists slope intercept,
    linear_regression (recent14 data) = Ok (slope, intercept) /\
    predict_next_values data steps
    = Ok (map (fun i : nat =>
                 slope * inject_Z (Z.of_nat (length (recent14 data)) + Z.of_nat i)
                 + intercept)
              (seq 0 (Z.to_nat steps))).
Proof.
  intros Hn. unfold predict_next_values.
  destruct (Nat.ltb_spec (length data) 3) as [H | _]; [lia |].
  destruct (linear_regression_total (recent14 data)) as ([slope intercept] & Hlr).
  exists slope, intercept. split; [exact Hlr |]. rewrite Hlr. reflexivity.
Qed.

(** X7: the forecast always has [steps] entries (none for a negative
    [steps]) and never raises; on an empty history it is all zeros, on one
    or two points it repeats the last value, and on more than fourteen
    points it is the forecast of the last fourteen alone. *)
Theorem predict_next_values_shape (data : list Q) (steps : Z) :
  exists preds,
    predict_next_values data steps = Ok preds /\
    length preds = Z.to_nat steps /\
    (data = [] -> preds = repeat 0 (Z.to_nat steps)) /\
    ((0 < length data < 3)%nat ->
       preds = repeat (nth (length data - 1) data 0) (Z.to_nat steps)) /\
    ((14 < length data)%nat ->
       predict_next_values (skipn (length data - 14) data) steps = Ok preds).
Proof.
  destruct (Nat.lt_ge_cases (length data) 3) as [Hs | Hl].
  - unfold predict_next_values.
    destruct (Nat.ltb_spec (length data) 3) as [_ | H]; [| lia].
    destruct data as [| x data].
    + eexists. split; [reflexivity |]. split; [apply repeat_length |].
      split; [reflexivity |]. simpl. split; intros; lia.
    + rewrite (py_last_ok 0) by discriminate. res_simpl.
      eexists. split; [reflexivity |]. split; [apply repeat_length |].
      split; [discriminate |]. split; [reflexivity | lia].
  - destruct (predict_next_values_long data steps Hl) as (s & i & Hlr & Hp).
    eexists. split; [exact Hp |].
    split; [now rewrite length_map, length_seq |].
    split; [intros ->; simpl in Hl; lia |]. split; [lia |].
    intros H14.
    assert (Hlen : length (skipn (length data - 14) data) = 14%nat)
      by (rewrite length_skipn; lia).
    assert (Hrec : recent14 (skipn (length data - 14) data) = recent14 data).
    { unfold recent14. rewrite Hlen. simpl.
      destruct (Nat.ltb_spec 14 (length data)); [reflexivity | lia]. }
    destruct (predict_next_values_long (skipn (length data - 14) data) steps)
      as (s' & i' & Hlr' & Hp'); [lia |].
    rewrite Hrec in Hlr', Hp'. rewrite Hlr in Hlr'. injection Hlr' as <- <-.
    exact Hp'.
Qed.



End Forecast.

(** ** Edge behaviour and range of the moving average *)

Section MovingAverageRange.
Import TrendAnalyzer.

Lemma res_mapM_raise {A B} (f : A -> Res B) (x : A) (l : list A) (e : exn) :
  f x = Raise e -> res_mapM f (x :: l) = Raise e.
Proof. intros H. simpl. now rewrite H. Qed.

Lemma slice_empty {A} (l : list A) (a b : nat) : (b <= a)%nat -> slice l a b = [].
Proof. intros H. unfold slice. now replace (b - a)%nat with 0%nat by lia. Qed.

Lemma seq_0_length_cons {A} (x : A) (l : list A) :
  seq 0 (length (x :: l)) = 0%nat :: seq 1 (length l).
Proof. reflexivity. Qed.


(** X9: a window of 0 makes the moving average raise [ZeroDivisionError]
    on any non-empty data, and a negative window yields a list of the
    length of the data whose entries are all zero. *)
Theorem moving_average_nonpositive_window (data : list Q) (window : Z) :
  data <> [] ->
  calculate_moving_average data 0 = Raise ZeroDivisionError /\
  ((window < 0)%Z ->
   exists l, calculate_moving_average data window = Ok l /\
             length l = length data /\ Forall (fun x => x == 0) l).
Proof.
  intros Hne. split.
  - destruct data as [| x data]; [contradiction |].
    unfold calculate_moving_average.
    destruct (Z.ltb_spec (Z.of_nat (length (x :: data))) 0) as [H | _]; [lia |].
    rewrite seq_0_length_cons. apply res_mapM_raise. reflexivity.
  - intros Hw. unfold calculate_moving_average.
    destruct (Z.ltb_spec (Z.of_nat (length data)) window) as [H | _]; [lia |].
    exists (map (fun _ : nat => py_sum [] / inject_Z window) (seq 0 (length data))).
    split; [| split].
    + apply res_mapM_ok. intros i _.
      destruct (Z.ltb_spec (Z.of_nat i) (window - 1)) as [H | _]; [lia |].
      rewrite slice_empty by lia.
      apply py_div_ok. intros E. unfold Qeq in E. simpl in E. lia.
    + now rewrite length_map, length_seq.
    + apply List.Forall_forall. intros x Hx. apply in_map_iff in Hx.
      destruct Hx as (_ & <- & _). unfold py_sum. simpl. unfold Qdiv. ring.
Qed.

(** [moving_average_nonpositive_window] on [[1; 2; 3]] with window -1. *)
Lemma moving_average_nonpositive_window_witness :
  calculate_moving_average [1; 2; 3] 0 = Raise ZeroDivisionError /\
  exists l, calculate_moving_average [1; 2; 3] (-1) = Ok l /\
            length l = 3%nat /\ Forall (fun x => x == 0) l.
Proof.
  destruct (moving_average_nonpositive_window [1; 2; 3] (-1)) as [H0 Hneg].
  - discriminate.
  - split; [exact H0 |]. apply Hneg. lia.
Defined.



End MovingAverageRange.

(** ** Direction, strength and forecast of a trend *)

Section TrendConsistency.
Import TrendAnalyzer.





End TrendConsistency.

(** ** How far a point can be from the mean *)

Section ZScoreBound.
Import AnomalyDetector.
Local Open Scope R_scope.











End ZScoreBound.

(** ** How many points the IQR detector can flag *)

Section IqrCount.
Import AnomalyDetector.

Lemma filter_length_Permutation {A} (P : A -> bool) (l l' : list A) :
  Permutation l l' ->
  length (List.filter P l) = length (List.filter P l').
Proof.
  induction 1 as [| x l l' _ IH | x y l | l l' l'' _ IH1 _ IH2]; simpl.
  - reflexivity.
  - destruct (P x); simpl; congruence.
  - destruct (P x), (P y); reflexivity.
  - congruence.
Qed.

Lemma filter_length_le {A} (P : A -> bool) (l : list A) :
  (length (List.filter P l) <= length l)%nat.
Proof.
  induction l as [| x l IH]; simpl; [lia |]. destruct (P x); simpl; lia.
Qed.

Lemma filter_none {A} (P : A -> bool) (l : list A) :
  (forall x, In x l -> P x = false) -> List.filter P l = [].
Proof.
  induction l as [| x l IH]; intros H; simpl; [reflexivity |].
  rewrite (H x) by now left. apply IH. intros y Hy. apply H. now right.
Qed.

Lemma list_as_map_nth {A} (d : A) (l : list A) :
  l = map (fun j => nth j l d) (seq 0 (length l)).
Proof.
  apply (List.nth_ext _ _ d d).
  - now rewrite length_map, length_seq.
  - intros j Hj.
    rewrite (nth_indep (map _ _) d (nth 0 l d))
      by now rewrite length_map, length_seq.
    rewrite (map_nth (fun j => nth j l d)), seq_nth by exact Hj. reflexivity.
Qed.

(** The number of records appended by the detection loop. *)
Lemma iqr_entries_length (lower upper : Q) (data : list Q) :
  length (concat (map (iqr_entry lower upper) (enumerate data)))
  = length (List.filter (fun v => Qlt_bool v lower || Qlt_bool upper v) data).
Proof.
  unfold enumerate. generalize 0%nat as s.
  induction data as [| v data IH]; intros s; [reflexivity |].
  cbn [length seq combine map concat List.filter]. rewrite length_app, IH.
  unfold iqr_entry.
  destruct (Qlt_bool v lower || Qlt_bool upper v); reflexivity.
Qed.

(** In an ascending list, only the elements before position [a] or after
    position [b] can lie outside the values at these two positions. *)
Lemma outside_count_sorted (s : list Q) (a b : nat) (lower upper : Q) :
  StronglySorted Qle s -> (a <= b)%nat -> (b < length s)%nat ->
  lower <= nth a s 0 -> nth b s 0 <= upper ->
  (length (List.filter (fun v => Qlt_bool v lower || Qlt_bool upper v) s)
   <= a + (length s - (b + 1)))%nat.
Proof.
  intros Hs Hab Hb Hlo Hup.
  set (P := fun v => Qlt_bool v lower || Qlt_bool upper v).
  rewrite (list_as_map_nth 0 s) at 1.
  replace (length s) with (a + ((b + 1 - a) + (length s - (b + 1))))%nat at 1 by lia.
  rewrite !seq_app, !map_app, !List.filter_app, !length_app.
  assert (Hmid : List.filter P (map (fun j => nth j s 0) (seq (0 + a) (b + 1 - a)))
                 = []).
  { apply filter_none. intros x Hx. apply in_map_iff in Hx.
    destruct Hx as (j & <- & Hj). apply in_seq in Hj.
    assert (H1 : nth a s 0 <= nth j s 0)
      by (apply StronglySorted_nth_le; [exact Hs | lia | lia]).
    assert (H2 : nth j s 0 <= nth b s 0)
      by (apply StronglySorted_nth_le; [exact Hs | lia | lia]).
    unfold P. apply orb_false_iff. split; apply Qlt_bool_false_iff; lra. }
  rewrite Hmid. cbn [length].
  pose proof (filter_length_le P (map (fun j => nth j s 0) (seq 0 a))) as L1.
  pose proof (filter_length_le P
                (map (fun j => nth j s 0)
                     (seq (0 + a + (b + 1 - a)) (length s - (b + 1))))) as L2.
  rewrite length_map, length_seq in L1, L2. lia.
Qed.

(** X13: with a non-negative multiplier the IQR detector flags fewer than
    half of the points, whatever the data, and every flagged value lies
    strictly outside the interval between the two quartiles. *)
Theorem detect_iqr_flags_fewer_than_half (data : list Q) (multiplier : Q) :
  0 <= multiplier ->
  exists res,
    detect_iqr data multiplier = Ok res /\
    (2 * length res <= length data)%nat /\
    (data <> [] -> (2 * length res < length data)%nat) /\
    (forall a, In a res ->
       value a < (iqr_quartiles data).1 \/ (iqr_quartiles data).2 < value a).
Proof.
  intros Hm.
  destruct (Nat.lt_ge_cases (length data) 4) as [Hs | Hl].
  - exists []. split; [now apply detect_iqr_short |].
    split; [simpl; lia |]. split; [| intros a []].
    intros Hne. destruct data; [contradiction | simpl; lia].
  - eexists. split; [now apply detect_iqr_long |].
    pose proof (iqr_quartiles_ordered data Hl) as Hq.
    assert (Hb : (iqr_bounds data multiplier).1 <= (iqr_quartiles data).1 /\
                 (iqr_quartiles data).2 <= (iqr_bounds data multiplier).2).
    { unfold iqr_bounds. destruct (iqr_quartiles data) as [q1 q3].
      cbn [fst snd] in *.
      assert (H : 0 <= multiplier * (q3 - q1))
        by (apply Qmult_le_0_compat; [exact Hm | lra]).
      lra. }
    set (lower := (iqr_bounds data multiplier).1) in *.
    set (upper := (iqr_bounds data multiplier).2) in *.
    assert (Hcount : (length (concat (map (iqr_entry lower upper) (enumerate data)))
                      <= length data / 4
                         + (length data - (3 * length data / 4 + 1)))%nat).
    { rewrite iqr_entries_length.
      rewrite (filter_length_Permutation _ _ _ (sorted_Permutation data)).
      unfold iqr_quartiles in Hb. cbn [fst snd] in Hb.
      apply Nat.le_trans
        with (length data / 4
              + (length (sorted data) - (3 * length data / 4 + 1)))%nat;
        [| rewrite sorted_length; lia].
      apply outside_count_sorted; try tauto.
      - apply sorted_StronglySorted.
      - apply Nat.Div0.div_le_mono. lia.
      - rewrite sorted_length. apply Nat.Div0.div_lt_upper_bound. lia. }
    assert (Hhalf : (2 * (length data / 4
                          + (length data - (3 * length data / 4 + 1)))
                     < length data)%nat).
    { pose proof (Nat.div_mod_eq (length data) 4) as E1.
      pose proof (Nat.div_mod_eq (3 * length data) 4) as E3.
      pose proof (Nat.mod_upper_bound (length data) 4) as U1.
      pose proof (Nat.mod_upper_bound (3 * length data) 4) as U3.
      lia. }
    split; [lia |]. split; [lia |].
    intros a Ha. apply in_concat in Ha. destruct Ha as (l & Hl' & Ha).
    apply in_map_iff in Hl'. destruct Hl' as ([i v] & <- & _).
    apply iqr_entry_In in Ha. destruct Ha as (_ & _ & -> & Hout & _).
    destruct Hb as [Hb1 Hb2]. destruct Hout; [left | right]; lra.
Qed.

(** [detect_iqr_flags_fewer_than_half] on seven readings with the default
    multiplier. *)
Lemma detect_iqr_flags_fewer_than_half_witness :
  exists res,
    detect_iqr [10; 11; 9; 10; 12; 11; 100] (3 # 2) = Ok res /\
    (2 * length res <= 7)%nat.
Proof.
  destruct (detect_iqr_flags_fewer_than_half [10; 11; 9; 10; 12; 11; 100] (3 # 2))
    as (res & Hr & Hlen & _).
  - lra.
  - exists res. split; [exact Hr | exact Hlen].
Defined.

End IqrCount.

(** ** The combined anomaly analysis *)

Section AnomalyAnalysis.
Import AnomalyDetector.















End AnomalyAnalysis.

(** ** Framingham: invalid input, score bands, monotonicity *)

Section FraminghamBands.
Import Cardiovascular.
Local Open Scope R_scope.

Lemma _validate_input_iff (i : CardiovascularRiskInput) :
  _validate_input i = true <-> valid_input i.
Proof.
  split; [| apply _validate_input_valid].
  unfold _validate_input, valid_input.
  destruct (Z.ltb_spec (age i) 30); [discriminate |].
  destruct (Z.ltb_spec 79 (age i)); [discriminate |]. cbn [orb].
  destruct (String.eqb_spec (gender i) "男") as [Hm | Hm];
    [| destruct (String.eqb_spec (gender i) "女") as [Hf | Hf]];
    cbn [orb negb]; try discriminate;
    (destruct (Rle_dec (total_cholesterol i) 0); [discriminate |];
     destruct (Rle_dec (hdl_cholesterol i) 0); [discriminate |];
     destruct (Rle_dec (systolic_bp i) 0); [discriminate |];
     intros _; repeat split; try lia; try lra; tauto).
Qed.

Lemma calculate_invalid (i : CardiovascularRiskInput) :
  ~ valid_input i -> calculate i = Ok _get_default_result.
Proof.
  intros Hn. unfold calculate.
  destruct (_validate_input i) eqn:E; [| reflexivity].
  apply _validate_input_iff in E. contradiction.
Qed.

Lemma valid_input_dec (i : CardiovascularRiskInput) :
  valid_input i \/ ~ valid_input i.
Proof.
  destruct (_validate_input i) eqn:E.
  - left. now apply _validate_input_iff.
  - right. intros H. apply _validate_input_iff in H. congruence.
Qed.

Lemma _get_risk_level_known (p : R) :
  (_get_risk_level p = "low" /\ p < 10) \/
  (_get_risk_level p = "medium" /\ 10 <= p < 20) \/
  (_get_risk_level p = "high" /\ 20 <= p).
Proof.
  unfold _get_risk_level.
  destruct (Rlt_dec p 10); [left; split; [reflexivity | lra] |].
  destruct (Rlt_dec p 20); right; [left | right]; split; try reflexivity; lra.
Qed.

Lemma Int_part_mono (x y : R) : x <= y -> (Int_part x <= Int_part y)%Z.
Proof.
  intros Hxy. pose proof (Int_part_bounds x). pose proof (Int_part_bounds y).
  destruct (Z_le_gt_dec (Int_part x) (Int_part y)) as [H' | H']; [exact H' |].
  assert (Hz : (Int_part y + 1 <= Int_part x)%Z) by lia.
  apply IZR_le in Hz. rewrite plus_IZR in Hz. lra.
Qed.

Lemma Int_part_IZR (z : Z) : Int_part (IZR z) = z.
Proof. apply Int_part_unique. lra. Qed.


(** The score for a risk percentage in each band. *)
Lemma score_bands (p : R) :
  0 <= p ->
  (p < 10 -> (0 <= Z.min 100 (py_int_R (p * 3)) <= 29)%Z) /\
  (10 <= p < 20 -> (30 <= Z.min 100 (py_int_R (p * 3)) <= 59)%Z) /\
  (20 <= p -> (60 <= Z.min 100 (py_int_R (p * 3)) <= 100)%Z).
Proof.
  intros Hp. rewrite py_int_R_nonneg by lra.
  pose proof (Int_part_bounds (p * 3)) as Hb.
  assert (H0 : (0 <= Int_part (p * 3))%Z).
  { rewrite <- (Int_part_IZR 0). apply Int_part_mono. lra. }
  split; [| split]; intros H.
  - assert (Int_part (p * 3) < 30)%Z; [| lia].
    apply lt_IZR. lra.
  - assert (30 <= Int_part (p * 3))%Z.
    { rewrite <- (Int_part_IZR 30). apply Int_part_mono. lra. }
    assert (Int_part (p * 3) < 60)%Z; [| lia].
    apply lt_IZR. lra.
  - assert (60 <= Int_part (p * 3))%Z; [| lia].
    rewrite <- (Int_part_IZR 60). apply Int_part_mono. lra.
Qed.

(** X17: the score and the level of a Framingham result always agree.
    Unless the calculator raises [OverflowError], the score lies in
    0..100, the level is low exactly for a valid input with a score of at
    most 29, medium exactly for a score of 30 to 59, and high exactly for
    a score of 60 or more; the default result for invalid input scores
    0. *)
Theorem framingham_score_matches_level (i : CardiovascularRiskInput) :
  calculate i = Raise OverflowError \/
  exists r,
    calculate i = Ok r /\
    (0 <= score r <= 100)%Z /\
    (risk_level r = "low" <-> valid_input i /\ (score r <= 29)%Z) /\
    (risk_level r = "medium" <-> (30 <= score r <= 59)%Z) /\
    (risk_level r = "high" <-> (60 <= score r)%Z).
Proof.
  destruct (valid_input_dec i) as [Hv | Hn].
  - destruct (calculate_valid i Hv) as [[_ Hr] | [_ (d & Hc)]];
      [now left | right].
    eexists. split; [exact Hc |]. cbn [risk_level score].
    pose proof (risk_percentage_nonneg i) as Hp.
    set (p := py_round_nd_R (framingham_risk i * 100) 1) in *.
    destruct (score_bands p Hp) as (B1 & B2 & B3).
    destruct (_get_risk_level_known p) as [[-> H] | [[-> H] | [-> H]]].
    + specialize (B1 H).
      split; [lia |]. split; [tauto |].
      split; split; try discriminate; lia.
    + specialize (B2 H).
      split; [lia |]. split; [split; [discriminate | lia] |].
      split; split; try discriminate; try reflexivity; lia.
    + specialize (B3 H).
      split; [lia |]. split; [split; [discriminate | lia] |].
      split; split; try discriminate; try reflexivity; lia.
  - right. exists _get_default_result. split; [now apply calculate_invalid |].
    cbn [_get_default_result risk_level score].
    split; [lia |]. split; [split; [discriminate | tauto] |].
    split; split; try discriminate; lia.
Qed.

End FraminghamBands.

(** ** Framingham: more risk factors, more risk *)

Section FraminghamMonotone.
Import Cardiovascular.
Local Open Scope R_scope.

Lemma py_round_R_mono (x y : R) : x <= y -> (py_round_R x <= py_round_R y)%Z.
Proof.
  intros [Hlt | ->]; [| lia].
  pose proof (py_round_R_nearest x) as Hx. apply Rabs_le_bounds in Hx.
  pose proof (py_round_R_nearest y) as Hy. apply Rabs_le_bounds in Hy.
  destruct (Z_le_gt_dec (py_round_R x) (py_round_R y)) as [H | H]; [exact H |].
  assert (Hz : (py_round_R y + 1 <= py_round_R x)%Z) by lia.
  apply IZR_le in Hz. rewrite plus_IZR in Hz. lra.
Qed.

Lemma py_round_nd_R_mono (x y : R) (n : nat) :
  x <= y -> py_round_nd_R x n <= py_round_nd_R y n.
Proof.
  intros Hxy. unfold py_round_nd_R.
  assert (Hp : 0 < 10 ^ n) by (apply pow_lt; lra).
  apply Rmult_le_compat_r; [left; now apply Rinv_0_lt_compat |].
  apply IZR_le, py_round_R_mono. apply Rmult_le_compat_r; lra.
Qed.

Lemma ln_mono (x y : R) : 0 < x -> x <= y -> ln x <= ln y.
Proof.
  intros Hx [Hlt | ->]; [| lra]. left. now apply ln_increasing.
Qed.

Lemma coefficient_signs (c : Coefficients) :
  c = MALE_COEFFICIENTS \/ c = FEMALE_COEFFICIENTS ->
  0 < ln_age c /\ 0 < ln_total_chol c /\ ln_hdl c < 0 /\
  0 < ln_sbp_untreated c < ln_sbp_treated c /\
  0 < smoker c /\ 0 < diabetes c /\ 0 < baseline_survival c < 1.
Proof. intros [-> | ->]; simpl; lra. Qed.

(** The risk grows with the coefficient sum. *)
Lemma risk_of_sum_mono (b s s' m : R) :
  0 < b < 1 -> s <= s' ->
  1 - Rpower b (exp (s - m)) <= 1 - Rpower b (exp (s' - m)).
Proof.
  intros [Hb0 Hb1] Hs. unfold Rpower.
  assert (Hln : ln b < 0) by (rewrite <- ln_1; now apply ln_increasing).
  assert (He : exp (s - m) <= exp (s' - m)) by (apply exp_le_mono; lra).
  assert (Hm : exp (s' - m) * ln b <= exp (s - m) * ln b) by nra.
  apply exp_le_mono in Hm. lra.
Qed.

Lemma framingham_risk_mono (i i' : CardiovascularRiskInput) :
  valid_input i -> valid_input i' -> at_least_as_risky i i' ->
  framingham_risk i <= framingham_risk i'.
Proof.
  intros (Hage & _ & Hc & _ & Hs) (_ & _ & _ & Hh' & _)
         (Hg & Hmed & Ha & Htc & Hhdl & Hsbp & Hsm & Hdb).
  unfold framingham_risk. cbv zeta.
  assert (Hcoef : coefficients_for i' = coefficients_for i)
    by (unfold coefficients_for; now rewrite Hg).
  rewrite Hcoef.
  destruct (coefficient_signs (coefficients_for i))
    as (S1 & S2 & S3 & S4 & S5 & S6 & S7).
  { unfold coefficients_for. destruct (String.eqb (gender i) "男"); tauto. }
  apply risk_of_sum_mono; [exact S7 |].
  unfold coefficient_sum_of. cbv zeta. rewrite Hcoef, Hmed.
  set (c := coefficients_for i) in *. clearbody c.
  assert (L1 : ln (IZR (age i)) <= ln (IZR (age i'))).
  { apply ln_mono; [apply IZR_lt; lia | now apply IZR_le]. }
  assert (L2 : ln (total_cholesterol i) <= ln (total_cholesterol i'))
    by now apply ln_mono.
  assert (L3 : ln (hdl_cholesterol i') <= ln (hdl_cholesterol i))
    by now apply ln_mono.
  assert (L4 : ln (systolic_bp i) <= ln (systolic_bp i')) by now apply ln_mono.
  assert (T1 : ln_age c * ln (IZR (age i)) <= ln_age c * ln (IZR (age i')))
    by (apply Rmult_le_compat_l; lra).
  assert (T2 : ln_total_chol c * ln (total_cholesterol i)
               <= ln_total_chol c * ln (total_cholesterol i'))
    by (apply Rmult_le_compat_l; lra).
  assert (T3 : ln_hdl c * ln (hdl_cholesterol i)
               <= ln_hdl c * ln (hdl_cholesterol i')).
  { set (u := ln (hdl_cholesterol i)) in *. set (u' := ln (hdl_cholesterol i')) in *.
    clearbody u u'. nra. }
  assert (T4 : (if on_bp_medication i then ln_sbp_treated c
                else ln_sbp_untreated c) * ln (systolic_bp i)
               <= (if on_bp_medication i then ln_sbp_treated c
                   else ln_sbp_untreated c) * ln (systolic_bp i')).
  { apply Rmult_le_compat_l; [| exact L4].
    destruct (on_bp_medication i); lra. }
  assert (T5 : (if is_smoker i then smoker c else 0)
               <= (if is_smoker i' then smoker c else 0)).
  { destruct (is_smoker i); [rewrite Hsm by reflexivity; lra |].
    destruct (is_smoker i'); lra. }
  assert (T6 : (if has_diabetes i then diabetes c else 0)
               <= (if has_diabetes i' then diabetes c else 0)).
  { destruct (has_diabetes i); [rewrite Hdb by reflexivity; lra |].
    destruct (has_diabetes i'); lra. }
  lra.
Qed.

(** X18: between two valid inputs of the same gender and medication
    status, if the second is no younger, has no lower total cholesterol
    and systolic pressure, no higher HDL cholesterol, and smokes or has
    diabetes whenever the first does, then whenever both assessments
    return, the risk percentage and the score of the second are at least
    those of the first. *)
Theorem framingham_monotone_in_risk_factors
    (i i' : CardiovascularRiskInput) (r r' : CardiovascularResult) :
  valid_input i -> valid_input i' -> at_least_as_risky i i' ->
  calculate i = Ok r -> calculate i' = Ok r' ->
  risk_percentage r <= risk_percentage r' /\ (score r <= score r')%Z.
Proof.
  intros Hv Hv' Hle Hr Hr'.
  destruct (calculate_valid i Hv) as [[_ Hc] | [_ (d & Hc)]]; [congruence |].
  destruct (calculate_valid i' Hv') as [[_ Hc'] | [_ (d' & Hc')]];
    [congruence |].
  rewrite Hc in Hr. rewrite Hc' in Hr'.
  injection Hr as <-. injection Hr' as <-.
  cbn [risk_percentage score].
  pose proof (framingham_risk_mono i i' Hv Hv' Hle) as Hrisk.
  assert (Hp : py_round_nd_R (framingham_risk i * 100) 1
               <= py_round_nd_R (framingham_risk i' * 100) 1)
    by (apply py_round_nd_R_mono; lra).
  split; [exact Hp |].
  pose proof (risk_percentage_nonneg i). pose proof (risk_percentage_nonneg i').
  rewrite !py_int_R_nonneg by lra.
  apply Z.min_le_compat_l, Int_part_mono. lra.
Qed.

(** [framingham_monotone_in_risk_factors] on a woman of 30 and the same
    woman as a smoker with diabetes. *)
Lemma framingham_monotone_in_risk_factors_witness :
  exists r r',
    calculate young_woman = Ok r /\
    calculate {| age := 30; gender := "女"; total_cholesterol := 150;
                 hdl_cholesterol := 90; systolic_bp := 90;
                 on_bp_medication := false; is_smoker := true;
                 has_diabetes := true |} = Ok r' /\
    risk_percentage r <= risk_percentage r' /\ (score r <= score r')%Z.
Proof.
  set (w := {| age := 30; gender := "女"; total_cholesterol := 150;
               hdl_cholesterol := 90; systolic_bp := 90;
               on_bp_medication := false; is_smoker := true;
               has_diabetes := true |}).
  assert (Hv : valid_input w).
  { unfold valid_input, w. simpl. split; [lia |]. split; [now right |]. lra. }
  assert (Hx : exponent_of w <= 700).
  { pose proof young_woman_exponent as H. revert H.
    unfold exponent_of, coefficient_sum_of, coefficients_for, w, young_woman.
    simpl. lra. }
  destruct (calculate_valid_fits young_woman young_woman_valid
              young_woman_exponent_of) as (d & Hc).
  destruct (calculate_valid_fits w Hv Hx) as (d' & Hc').
  do 2 eexists. split; [exact Hc |]. split; [exact Hc' |].
  apply (framingham_monotone_in_risk_factors young_woman w _ _
           young_woman_valid Hv); [| exact Hc | exact Hc'].
  unfold at_least_as_risky, young_woman, w. simpl.
  repeat split; try reflexivity; try lia; try lra; discriminate.
Defined.

End FraminghamMonotone.

(** ** Metabolic syndrome: medication, unknown gender, advice *)

Section MetabolicFurther.
Import Metabolic.

Lemma thresholds_other_gender (g : string) :
  g <> "男" -> g <> "女" ->
  WAIST_THRESHOLD !! g = None /\ HDL_THRESHOLD !! g = None.
Proof.
  intros Hm Hf. unfold WAIST_THRESHOLD, HDL_THRESHOLD.
  rewrite !lookup_insert_ne by congruence. now rewrite lookup_empty.
Qed.

(** X19: the lipid-medication flag satisfies both the triglyceride and the
    HDL criterion, so a patient on lipid medication always has at least
    two criteria met, is never at low risk, and is diagnosed as soon as
    one of the waist, blood-pressure or glucose criteria holds. *)
Theorem lipid_medication_counts_twice (i : MetabolicRiskInput) :
  on_lipid_medication i = true ->
  let r := calculate i in
  (2 <= criteria_met r)%Z /\ (40 <= score r)%Z /\ risk_level r <> "low" /\
  (waist_criterion i \/ blood_pressure_criterion i \/ glucose_criterion i ->
   has_metabolic_syndrome r = true /\ risk_level r = "high").
Proof.
  intros Hl. unfold calculate. rewrite Hl, !orb_true_r.
  unfold waist_criterion, blood_pressure_criterion, glucose_criterion.
  set (b1 := Qle_bool _ (waist i)).
  set (b4 := Qle_bool 130 (systolic_bp i) || Qle_bool 85 (diastolic_bp i)
             || on_bp_medication i).
  set (b5 := Qle_bool (56 # 10) (fasting_glucose i) || on_glucose_medication i).
  cbn [has_metabolic_syndrome criteria_met score risk_level].
  assert (H1 : default 90 (WAIST_THRESHOLD !! gender i) <= waist i -> b1 = true)
    by (intros H; now apply Qle_bool_iff).
  assert (H4 : 130 <= systolic_bp i \/ 85 <= diastolic_bp i
               \/ on_bp_medication i = true -> b4 = true).
  { intros H. unfold b4. rewrite !orb_true_iff, !Qle_bool_iff. tauto. }
  assert (H5 : 56 # 10 <= fasting_glucose i \/ on_glucose_medication i = true
               -> b5 = true).
  { intros H. unfold b5. rewrite orb_true_iff, Qle_bool_iff. tauto. }
  clearbody b1 b4 b5.
  split; [destruct b1, b4, b5; simpl; lia |].
  split; [destruct b1, b4, b5; simpl; lia |].
  split; [destruct b1, b4, b5; simpl; discriminate |].
  intros [H | [H | H]].
  - rewrite (H1 H). destruct b4, b5; split; reflexivity.
  - rewrite (H4 H). destruct b1, b5; split; reflexivity.
  - assert (b5 = true) as -> by (apply H5; tauto).
    destruct b1, b4; split; reflexivity.
Qed.

(** [lipid_medication_counts_twice] on a patient whose measurements are all
    normal. *)
Lemma lipid_medication_counts_twice_witness :
  let r := calculate {| waist := 70; gender := "女"; triglycerides := 100;
                        hdl_cholesterol := 60; systolic_bp := 110;
                        diastolic_bp := 70; fasting_glucose := 5;
                        on_bp_medication := false; on_lipid_medication := true;
                        on_glucose_medication := false |} in
  (2 <= criteria_met r)%Z /\ risk_level r <> "low".
Proof.
  pose proof (lipid_medication_counts_twice
                {| waist := 70; gender := "女"; triglycerides := 100;
                   hdl_cholesterol := 60; systolic_bp := 110;
                   diastolic_bp := 70; fasting_glucose := 5;
                   on_bp_medication := false; on_lipid_medication := true;
                   on_glucose_medication := false |} eq_refl) as H.
  cbv zeta in *. destruct H as (H1 & _ & H3 & _). split; [exact H1 | exact H3].
Defined.

(** X20: a gender string other than the two known ones is assessed with
    the male thresholds (waist 90, HDL 40): the result is that of the same
    measurements with gender ['男']. *)
Theorem metabolic_unknown_gender_as_male (i : MetabolicRiskInput) :
  gender i <> "男" -> gender i <> "女" ->
  calculate i
  = calculate {| waist := waist i; gender := "男";
                 triglycerides := triglycerides i;
                 hdl_cholesterol := hdl_cholesterol i;
                 systolic_bp := systolic_bp i;
                 diastolic_bp := diastolic_bp i;
                 fasting_glucose := fasting_glucose i;
                 on_bp_medication := on_bp_medication i;
                 on_lipid_medication := on_lipid_medication i;
                 on_glucose_medication := on_glucose_medication i |}.
Proof.
  intros Hm Hf. destruct (thresholds_other_gender _ Hm Hf) as [Hw Hh].
  unfold calculate.
  cbn [waist gender triglycerides hdl_cholesterol systolic_bp diastolic_bp
       fasting_glucose on_bp_medication on_lipid_medication
       on_glucose_medication].
  rewrite Hw, Hh.
  destruct threshold_genders as (-> & _ & -> & _). reflexivity.
Qed.

(** [metabolic_unknown_gender_as_male] on an empty gender string. *)
Lemma metabolic_unknown_gender_as_male_witness :
  calculate {| waist := 85; gender := ""; triglycerides := 100;
               hdl_cholesterol := 45; systolic_bp := 110;
               diastolic_bp := 70; fasting_glucose := 5;
               on_bp_medication := false; on_lipid_medication := false;
               on_glucose_medication := false |}
  = calculate {| waist := 85; gender := "男"; triglycerides := 100;
                 hdl_cholesterol := 45; systolic_bp := 110;
                 diastolic_bp := 70; fasting_glucose := 5;
                 on_bp_medication := false; on_lipid_medication := false;
                 on_glucose_medication := false |}.
Proof.
  apply (metabolic_unknown_gender_as_male
           {| waist := 85; gender := ""; triglycerides := 100;
              hdl_cholesterol := 45; systolic_bp := 110;
              diastolic_bp := 70; fasting_glucose := 5;
              on_bp_medication := false; on_lipid_medication := false;
              on_glucose_medication := false |}); discriminate.
Defined.

(** X21: the advice list of a diagnosed patient always has exactly eight
    entries, starts with the advice to see a doctor, and never contains
    the closing advice of regular check-ups, which the cut to eight
    entries removes; without the diagnosis nothing is cut: the list has
    two entries per met criterion plus two, and ends with that closing
    advice. *)
Theorem metabolic_advice_cut_when_diagnosed (i : MetabolicRiskInput) :
  let r := calculate i in
  let advice :=
    _generate_recommendations i (criteria_details r) (has_metabolic_syndrome r) in
  (has_metabolic_syndrome r = true ->
     length advice = 8%nat /\
     nth 0 advice "" = "您已符合代谢综合征诊断标准，建议尽快就医" /\
     ~ In "定期体检，监测各项代谢指标" advice) /\
  (has_metabolic_syndrome r = false ->
     Z.of_nat (length advice) = (2 * criteria_met r + 2)%Z /\
     nth (length advice - 1) advice "" = "定期体检，监测各项代谢指标").
Proof.
  unfold calculate.
  set (b1 := Qle_bool _ (waist i)).
  set (b2 := Qle_bool 150 (triglycerides i) || on_lipid_medication i).
  set (b3 := Qlt_bool (hdl_cholesterol i) _ || on_lipid_medication i).
  set (b4 := Qle_bool 130 (systolic_bp i) || Qle_bool 85 (diastolic_bp i)
             || on_bp_medication i).
  set (b5 := Qle_bool (56 # 10) (fasting_glucose i) || on_glucose_medication i).
  cbn [has_metabolic_syndrome criteria_met criteria_details app].
  unfold _generate_recommendations. clearbody b1 b2 b3 b4 b5.
  destruct b1, b2, b3, b4, b5; cbn -[In];
    (split; [intros Hs | intros Hn]; try discriminate;
     repeat split; try reflexivity);
    intros Hin; simpl in Hin;
    repeat (destruct Hin as [Hin | Hin]; [discriminate Hin |]);
    exact Hin.
Qed.

End MetabolicFurther.

(** ** FINDRISC: gender default and score bands *)

Section FindriscFurther.
Import Diabetes.

(** X22: any gender string other than ['男'] is scored with the female
    waist thresholds (80 and 88): the result is that of the same answers
    with gender ['女']. *)
Theorem findrisc_other_gender_as_female (i : DiabetesRiskInput) :
  gender i <> "男" ->
  calculate i
  = calculate {| age := age i; bmi := bmi i; waist := waist i; gender := "女";
                 on_bp_medication := on_bp_medication i;
                 history_high_glucose := history_high_glucose i;
                 daily_physical_activity := daily_physical_activity i;
                 daily_fruit_vegetable := daily_fruit_vegetable i;
                 family_diabetes := family_diabetes i |}.
Proof.
  intros Hg. unfold calculate.
  cbn [age bmi waist gender on_bp_medication history_high_glucose
       daily_physical_activity daily_fruit_vegetable family_diabetes].
  assert (Hw : _score_waist (waist i) (gender i) = _score_waist (waist i) "女").
  { unfold _score_waist.
    destruct (String.eqb_spec (gender i) "男"); [contradiction | reflexivity]. }
  rewrite Hw. reflexivity.
Qed.

(** [findrisc_other_gender_as_female] on an upper-case ['M']. *)
Lemma findrisc_other_gender_as_female_witness :
  calculate_diabetes_risk 50 27 90 "M" false false true true "none"
  = calculate_diabetes_risk 50 27 90 "女" false false true true "none".
Proof.
  apply (findrisc_other_gender_as_female
           {| age := 50; bmi := 27; waist := 90; gender := "M";
              on_bp_medication := false; history_high_glucose := false;
              daily_physical_activity := true; daily_fruit_vegetable := true;
              family_diabetes := "none" |}).
  discriminate.
Defined.

(** X23: the cap at 100 of the normalised FINDRISC score never applies:
    the score is the floor of [total * 100 / 26], reaches 100 only at the
    full 26 points, and determines the level: low up to 42, medium from
    46 to 53, high from 57. *)
Theorem findrisc_score_matches_level (i : DiabetesRiskInput) :
  let r := calculate i in
  score r = (total_score r * 100 / 26)%Z /\
  (0 <= score r <= 100)%Z /\
  (score r = 100%Z <-> total_score r = 26%Z) /\
  (risk_level r = "low" <-> (score r <= 42)%Z) /\
  (risk_level r = "medium" <-> (46 <= score r <= 53)%Z) /\
  (risk_level r = "high" <-> (57 <= score r)%Z).
Proof.
  unfold calculate.
  set (t := (0 + _ + _ + _ + _ + _ + _ + _ + _)%Z).
  destruct (_get_risk_level t) as [lvl pct] eqn:Htier.
  cbn [total_score risk_level score].
  assert (Ht : (0 <= t <= 26)%Z).
  { subst t.
    pose proof (_score_age_range (age i)).
    pose proof (_score_bmi_range (bmi i)).
    pose proof (_score_waist_range (waist i) (gender i)).
    pose proof (_score_family_history_range (family_diabetes i)).
    destruct (daily_physical_activity i), (daily_fruit_vegetable i),
      (on_bp_medication i), (history_high_glucose i); lia. }
  rewrite (py_int_div_nonneg (t * 100) 26) by lia.
  clearbody t.
  pose proof (Z.div_mod (t * 100) 26 ltac:(lia)) as Hdiv.
  pose proof (Z.mod_pos_bound (t * 100) 26 ltac:(lia)) as Hmod.
  set (s := (t * 100 / 26)%Z) in *. clearbody s.
  destruct (_get_risk_level_tiers t) as (T1 & T2 & T3 & T4 & T5).
  assert (Hlvl : ((t <= 11)%Z /\ lvl = "low") \/
                 ((12 <= t <= 14)%Z /\ lvl = "medium") \/
                 ((15 <= t)%Z /\ lvl = "high")).
  { destruct (Z_lt_dec t 7) as [H | H];
      [rewrite (T1 H) in Htier; injection Htier as <- <-; left; split; [lia | reflexivity] |].
    destruct (Z_lt_dec t 12) as [H2 | H2];
      [rewrite T2 in Htier by lia; injection Htier as <- <-;
       left; split; [lia | reflexivity] |].
    destruct (Z_lt_dec t 15) as [H3 | H3];
      [rewrite T3 in Htier by lia; injection Htier as <- <-;
       right; left; split; [lia | reflexivity] |].
    destruct (Z_lt_dec t 21) as [H4 | H4];
      [rewrite T4 in Htier by lia | rewrite T5 in Htier by lia];
      injection Htier as <- <-; right; right; split; (lia || reflexivity). }
  clear T1 T2 T3 T4 T5 Htier.
  split; [lia |]. split; [lia |]. split; [lia |].
  destruct Hlvl as [[Hr ->] | [[Hr ->] | [Hr ->]]];
    repeat split; intros; try discriminate; try reflexivity; lia.
Qed.

End FindriscFurther.

(** ** The assessments of the risk service *)

Section RiskServiceProperties.
Import RiskService.

Lemma or_float_missing (x : option Q) (d : Q) :
  x = None \/ (exists v, x = Some v /\ v == 0) -> or_float x d = d.
Proof.
  intros [-> | (v & -> & Hv)]; [reflexivity |].
  unfold or_float. now rewrite (proj2 (Qeq_bool_iff v 0) Hv).
Qed.

(** X24: the generic assessment always scores between 20 and 75, so its
    clamp to 0..100 never applies.  Without a health profile the level is
    always medium.  A low level requires a profile with regular exercise
    and no smoking; a high level requires a profile of a smoker or of
    someone who does not exercise regularly. *)
Theorem assess_generic_range (user : User) (profile : option UserHealthProfile)
    (assessment_type : string) :
  let r := _assess_generic user profile assessment_type in
  (20 <= score r <= 75)%Z /\
  (profile = None -> risk_level r = "medium" /\ (30 <= score r <= 45)%Z) /\
  (risk_level r = "low" ->
     exists p, profile = Some p /\
       (exercise_frequency p = Some "3-4/week"
        \/ exercise_frequency p = Some "daily") /\
       or_False (is_smoker p) = false) /\
  (risk_level r = "high" ->
     exists p, profile = Some p /\
       (or_False (is_smoker p) = true \/
        (exercise_frequency p <> Some "3-4/week"
         /\ exercise_frequency p <> Some "daily"))).
Proof.
  unfold _assess_generic.
  set (s1 := match age user with Some _ => _ | None => _ end).
  assert (H1 : s1 = 30%Z \/ s1 = 35%Z \/ s1 = 45%Z).
  { subst s1. destruct (age user) as [a |]; [| tauto].
    destruct (a =? 0)%Z; [tauto |].
    destruct (60 <=? a)%Z; [tauto |]. destruct (45 <=? a)%Z; tauto. }
  clearbody s1.
  destruct profile as [p |].
  - set (s2 := match bmi p with Some _ => _ | None => _ end).
    assert (H2 : s2 = s1 \/ s2 = (s1 + 10)%Z).
    { subst s2. destruct (bmi p) as [b |]; [| tauto].
      destruct (negb (Qeq_bool b 0) && Qle_bool 25 b); tauto. }
    clearbody s2.
    destruct (or_False (is_smoker p)) eqn:Hsm;
      destruct (exercise_frequency p) as [f |] eqn:Hf.
    all: try (destruct (String.eqb_spec f "3-4/week") as [-> | Hn1];
              [| destruct (String.eqb_spec f "daily") as [-> | Hn2]]).
    all: cbn [orb score risk_level].
    all: destruct H1 as [-> | [-> | ->]]; destruct H2 as [-> | ->].
    all: cbn.
    all: split; [lia |]; split; [discriminate |].
    all: split; intros H; vm_compute in H; try discriminate H.
    all: exists p; split; [reflexivity |]; rewrite ?Hf, ?Hsm.
    all: try (split; [first [left; reflexivity | right; reflexivity]
                     | reflexivity]).
    all: try (left; reflexivity).
    all: right; split; congruence.
  - cbn [score risk_level].
    destruct H1 as [-> | [-> | ->]]; vm_compute;
      (split; [split; discriminate |];
       split; [intros _; split; [reflexivity | split; discriminate] |];
       split; discriminate).
Qed.

(** A met waist criterion already excludes the low level. *)
Lemma waist_criterion_counts (i : Metabolic.MetabolicRiskInput) :
  waist_criterion i ->
  let r := Metabolic.calculate i in
  (1 <= Metabolic.criteria_met r)%Z /\ Metabolic.risk_level r <> "low" /\
  Metabolic.risk_level r <> "unknown" /\ (20 <= Metabolic.score r)%Z.
Proof.
  intros Hw. unfold Metabolic.calculate.
  assert (E : Qle_bool (default 90 (Metabolic.WAIST_THRESHOLD !! Metabolic.gender i))
                       (Metabolic.waist i) = true)
    by now apply Qle_bool_iff.
  rewrite E.
  set (b2 := Qle_bool 150 (Metabolic.triglycerides i)
             || Metabolic.on_lipid_medication i).
  set (b3 := Qlt_bool (Metabolic.hdl_cholesterol i) _
             || Metabolic.on_lipid_medication i).
  set (b4 := Qle_bool 130 (Metabolic.systolic_bp i)
             || Qle_bool 85 (Metabolic.diastolic_bp i)
             || Metabolic.on_bp_medication i).
  set (b5 := Qle_bool (56 # 10) (Metabolic.fasting_glucose i)
             || Metabolic.on_glucose_medication i).
  cbn [Metabolic.criteria_met Metabolic.score Metabolic.risk_level].
  clearbody b2 b3 b4 b5.
  destruct b2, b3, b4, b5; vm_compute; repeat split; discriminate.
Qed.

(** X25: when the waist is missing or zero in the profile, the service
    assesses a waist of 85 cm, which already meets the female thresholds:
    a woman with no recorded waist is never at low metabolic risk (at
    least one criterion counts, score 20 or more), and her FINDRISC score
    is at least 11, whatever the rest of her profile says. *)
Theorem missing_waist_counts_for_women (user : User) (p : UserHealthProfile) :
  gender user = Some "女" ->
  waist p = None \/ (exists v, waist p = Some v /\ v == 0) ->
  let m := _assess_metabolic user (Some p) in
  let d := _assess_diabetes user (Some p) in
  risk_level m <> "low" /\ risk_level m <> "unknown" /\ (20 <= score m)%Z /\
  (11 <= score d)%Z.
Proof.
  intros Hg Hw. unfold _assess_metabolic, _assess_diabetes.
  rewrite Hg, (or_float_missing _ 85 Hw). cbn [or_str String.eqb Ascii.eqb].
  assert (Hm : waist_criterion
                 {| Metabolic.waist := 85; Metabolic.gender := "女";
                    Metabolic.triglycerides := or_float (triglycerides p) 120;
                    Metabolic.hdl_cholesterol := or_float (hdl_cholesterol p) 50;
                    Metabolic.systolic_bp := or_float (systolic_bp p) 120;
                    Metabolic.diastolic_bp := or_float (diastolic_bp p) 80;
                    Metabolic.fasting_glucose := or_float (fasting_glucose p) 5;
                    Metabolic.on_bp_medication := or_False (on_bp_medication p);
                    Metabolic.on_lipid_medication := false;
                    Metabolic.on_glucose_medication :=
                      or_False (has_diabetes p) |}).
  { unfold waist_criterion. cbn [Metabolic.waist Metabolic.gender].
    destruct threshold_genders as (_ & -> & _). vm_compute. discriminate. }
  destruct (waist_criterion_counts _ Hm) as (M1 & M2 & M3 & M4).
  cbn [risk_level score].
  split; [exact M2 |]. split; [exact M3 |]. split; [exact M4 |].
  unfold Diabetes.calculate.
    cbn [Diabetes.waist Diabetes.gender Diabetes.score score
         Diabetes.age Diabetes.bmi Diabetes.on_bp_medication
         Diabetes.history_high_glucose Diabetes.daily_physical_activity
         Diabetes.daily_fruit_vegetable Diabetes.family_diabetes].
    change (Diabetes._score_waist 85 "女") with 3%Z.
    set (t := (0 + _ + _ + _ + _ + _ + _ + _ + _)%Z).
    destruct (Diabetes._get_risk_level t) as [lvl pct].
    cbn [Diabetes.score].
    assert (Ht : (3 <= t <= 26)%Z).
    { subst t.
      pose proof (_score_age_range (or_int (age user) 40)).
      pose proof (_score_bmi_range (or_float (bmi p) 24)).
      set (fam := if or_False (family_diabetes p) then _ else _).
      pose proof (_score_family_history_range fam).
      repeat match goal with
             | |- context [if ?b then _ else _] => destruct b
             end; lia. }
    rewrite (py_int_div_nonneg (t * 100) 26) by lia.
    clearbody t.
    pose proof (Z.div_mod (t * 100) 26 ltac:(lia)).
    pose proof (Z.mod_pos_bound (t * 100) 26 ltac:(lia)).
    lia.
Qed.

(** [missing_waist_counts_for_women] on a woman whose profile is empty. *)
Lemma missing_waist_counts_for_women_witness :
  let p := {| bmi := None; waist := None; systolic_bp := None;
              diastolic_bp := None; on_bp_medication := None;
              total_cholesterol := None; hdl_cholesterol := None;
              triglycerides := None; fasting_glucose := None;
              is_smoker := None; exercise_frequency := None;
              has_diabetes := None; family_diabetes := None;
              daily_fruit_vegetable := None |} in
  let u := {| age := None; gender := Some "女" |} in
  risk_level (_assess_metabolic u (Some p)) <> "low" /\
  (11 <= score (_assess_diabetes u (Some p)))%Z.
Proof.
  intros p u.
  destruct (missing_waist_counts_for_women u p) as (H1 & _ & _ & H4).
  - reflexivity.
  - left. reflexivity.
  - split; [exact H1 | exact H4].
Defined.




End RiskServiceProperties.
